(** * Stateless training loops: the JAX custom-training-loop guide

    A shallow embedding of the code cells of
    [guides/ipynb/writing_a_custom_training_loop_in_jax.ipynb].

    The notebook threads a state tuple through pure step functions and
    touches the long-lived Keras objects (model, optimizer, metrics) only in
    the outer loops.  The embedding keeps that split:

    - Python values that cross function boundaries (arrays, lists of arrays,
      tuples) are a small dynamic type [pyval]; destructuring a tuple of the
      wrong arity raises, as it does in Python;
    - the step functions live in the exception monad [result];
    - the outer loops live in [M], a state-and-exception monad over [world],
      the values held by the mutable objects plus what was printed;
    - the two step functions of cells 21 and 23 are embedded a second time
      in [M] (module [Ambient]), every method they call being a computation
      over [world]: their purity is stated there, and the two embeddings
      agree on methods that are pure operations;
    - Keras and JAX themselves are not part of the notebook: the model, the
      loss, the optimizer, the metrics and the differentiation operator are
      records of operations the development is parametric in. *)

From Stdlib Require Import List ZArith Lia Bool Arith.
From Stdlib Require QArith.
From Stdlib Require Import FunctionalExtensionality.
Import ListNotations.

Set Implicit Arguments.
Set Warnings "-register-all".

(** ** Exceptions *)

Inductive exn : Type :=
| ValueError
| TypeError.

Inductive result (A : Type) : Type :=
| Ok (a : A)
| Raise (e : exn).

Arguments Ok {A} a.
Arguments Raise {A} e.

Definition bind {A B : Type} (c : result A) (k : A -> result B) : result B :=
  match c with
  | Ok a => k a
  | Raise e => Raise e
  end.

Declare Scope result_scope.
Delimit Scope result_scope with res.
Bind Scope result_scope with result.

Notation "x <- c ;; k" := (bind c (fun x => k))
  (at level 61, c at next level, right associativity) : result_scope.
Notation "' pat <- c ;; k" := (bind c (fun x => match x with pat => k end))
  (at level 61, pat pattern, c at next level, right associativity) : result_scope.

Open Scope result_scope.

(** ** Python values *)

Section Values.

Variable tensor : Type.

(** An array, a Python list of arrays (a variable collection, or the list
    of tracked losses), or a tuple. *)
Inductive pyval : Type :=
| Arr (a : tensor)
| Vars (vs : list tensor)
| Tup (items : list pyval).

(** Iterating a value, as tuple unpacking and [zip] do.  Arrays are kept
    opaque: the notebook never iterates one. *)
Definition items_of (v : pyval) : result (list pyval) :=
  match v with
  | Tup items => Ok items
  | Vars vs => Ok (map Arr vs)
  | Arr _ => Raise TypeError
  end.

(** [a, b = v] *)
Definition unpack2 (v : pyval) : result (pyval * pyval) :=
  l <- items_of v ;;
  match l with
  | [a; b] => Ok (a, b)
  | _ => Raise ValueError
  end.

(** [a, b, c = v] *)
Definition unpack3 (v : pyval) : result (pyval * pyval * pyval) :=
  l <- items_of v ;;
  match l with
  | [a; b; c] => Ok (a, b, c)
  | _ => Raise ValueError
  end.

(** [a, b, c, d = v] *)
Definition unpack4 (v : pyval) : result (pyval * pyval * pyval * pyval) :=
  l <- items_of v ;;
  match l with
  | [a; b; c; d] => Ok (a, b, c, d)
  | _ => Raise ValueError
  end.

(** Arguments handed to Keras or JAX: a collection must be a list of
    arrays, an array must be an array. *)
Definition as_vars (v : pyval) : result (list tensor) :=
  match v with
  | Vars vs => Ok vs
  | _ => Raise TypeError
  end.

Definition as_arr (v : pyval) : result tensor :=
  match v with
  | Arr a => Ok a
  | _ => Raise TypeError
  end.

(** Truth value of a sequence ([if losses:]): non-empty. *)
Definition truthy (v : pyval) : result bool :=
  l <- items_of v ;;
  Ok (negb (Nat.eqb (length l) 0)).

(** *** Collaborators

    The objects the notebook obtains from Keras and JAX.  Each record
    lists the pure operation behind the object's stateless method, on
    plain arrays; the Python-facing method wraps it below. *)

(** [forward tv ntv x training] gives the predictions, the updated
    non-trainable values and the losses tracked during the pass. *)
Record Model : Type := {
  forward : list tensor -> list tensor -> tensor -> option bool ->
            result (tensor * list tensor * list tensor)
}.

(** [apply_gradients ov grads tv] gives [(tv', ov')]. *)
Record Optimizer : Type := {
  build_variables : list tensor -> list tensor;
  apply_gradients : list tensor -> list tensor -> list tensor ->
                    result (list tensor * list tensor)
}.

Record Metric : Type := {
  initial_variables : list tensor;
  update_state : list tensor -> tensor -> tensor -> result (list tensor);
  result_of : list tensor -> tensor
}.

Definition Loss : Type := tensor -> tensor -> result tensor.

(** [grad f p]: the gradient at [p] of the scalar function [f] of a
    variable collection.  [is_scalar a]: whether the array [a] converts to
    a Python scalar.  [numpy_sum a]: the sum of the entries of the array
    [a]. *)
Record Jax : Type := {
  shape : tensor -> list nat;
  is_scalar : tensor -> bool;
  grad : (list tensor -> result tensor) -> list tensor -> result (list tensor);
  numpy_sum : tensor -> tensor;
  add : tensor -> tensor -> tensor
}.

(** [jax.numpy.sum(v)]: an array is summed; a Python list or tuple is not
    an array and is refused. *)
Definition jnp_sum (jax : Jax) (v : pyval) : result pyval :=
  match v with
  | Arr a => Ok (Arr (numpy_sum jax a))
  | _ => Raise TypeError
  end.

(** [float(v)]: only an array that is a scalar converts. *)
Definition float_of (jax : Jax) (v : pyval) : result tensor :=
  a <- as_arr v ;;
  if is_scalar jax a then Ok a else Raise TypeError.

(** Modelled from the spec: [model.stateless_call] (Keras, not in the
    notebook).  Given [(trainable_params, non_trainable_params, inputs,
    training_flag, return_losses_flag)] it returns [(predictions,
    updated_non_trainable_params[, extra_losses])], the losses only when
    requested. *)
Definition stateless_call (model : Model)
    (trainable_variables non_trainable_variables x : pyval)
    (training : option bool) (return_losses : bool) : result pyval :=
  tv <- as_vars trainable_variables ;;
  ntv <- as_vars non_trainable_variables ;;
  inputs <- as_arr x ;;
  '(y_pred, ntv', losses) <- forward model tv ntv inputs training ;;
  Ok (if return_losses
      then Tup [Arr y_pred; Vars ntv'; Vars losses]
      else Tup [Arr y_pred; Vars ntv']).

(** Modelled from the spec: calling the loss object on [(y, y_pred)]. *)
Definition call_loss (loss_fn : Loss) (y y_pred : pyval) : result pyval :=
  targets <- as_arr y ;;
  predictions <- as_arr y_pred ;;
  l <- loss_fn targets predictions ;;
  Ok (Arr l).

(** Modelled from the spec: [optimizer.stateless_apply].  Given
    [(optimizer_accum, gradients, trainable_params)] it returns
    [(updated_trainable_params, updated_optimizer_accum)]. *)
Definition stateless_apply (optimizer : Optimizer)
    (optimizer_variables grads trainable_variables : pyval) : result pyval :=
  ov <- as_vars optimizer_variables ;;
  g <- as_vars grads ;;
  tv <- as_vars trainable_variables ;;
  '(tv', ov') <- apply_gradients optimizer ov g tv ;;
  Ok (Tup [Vars tv'; Vars ov']).

(** Modelled from the spec: [metric.stateless_update_state].
    [update(metric_accum, targets, predictions)] returns the updated
    accumulator. *)
Definition stateless_update_state (metric : Metric)
    (metric_variables y y_pred : pyval) : result pyval :=
  mv <- as_vars metric_variables ;;
  targets <- as_arr y ;;
  predictions <- as_arr y_pred ;;
  mv' <- update_state metric mv targets predictions ;;
  Ok (Vars mv').

(** With [has_aux] the differentiated function must return a pair. *)
Definition aux_pair (out : pyval) : result (pyval * pyval) :=
  match items_of out with
  | Ok [ans; aux] => Ok (ans, aux)
  | _ => Raise TypeError
  end.

(** The scalar that is differentiated: [f] as a function of its first
    argument alone, reduced to the first element of what it returns when
    there are auxiliary outputs. *)
Definition scalar_output (f : list pyval -> result pyval) (has_aux : bool)
    (rest : list pyval) (p : list tensor) : result tensor :=
  out <- f (Vars p :: rest) ;;
  if has_aux then '(ans, _) <- aux_pair out ;; as_arr ans else as_arr out.

(** Modelled from the spec: [jax.value_and_grad(f, has_aux)].  It accepts
    a function whose first positional argument is the quantity to
    differentiate against and whose return value is [(loss_scalar,
    auxiliary_outputs)], and produces a function returning
    [((loss_scalar, auxiliary_outputs), gradients)]: the scalar is located
    positionally, as the first element, and the rest is handed back as it
    is. *)
Definition value_and_grad (jax : Jax) (f : list pyval -> result pyval)
    (has_aux : bool) (args : list pyval) : result pyval :=
  match args with
  | [] => Raise TypeError
  | primal :: rest =>
      p <- as_vars primal ;;
      out <- f args ;;
      if has_aux then
        '(ans, aux) <- aux_pair out ;;
        _ <- as_arr ans ;;
        g <- grad jax (scalar_output f has_aux rest) p ;;
        Ok (Tup [Tup [ans; aux]; Vars g])
      else
        _ <- as_arr out ;;
        g <- grad jax (scalar_output f has_aux rest) p ;;
        Ok (Tup [out; Vars g])
  end.

(** [jax.jit]: tracing and replaying a pure function does not change what
    it returns. *)
Definition jit (A B : Type) (f : A -> B) : A -> B := f.

(** *** Shape signatures *)

Inductive signature : Type :=
| SArr (dims : list nat)
| SVars (dims : list (list nat))
| STup (parts : list signature).

Fixpoint signature_of (jax : Jax) (v : pyval) : signature :=
  match v with
  | Arr a => SArr (shape jax a)
  | Vars vs => SVars (map (shape jax) vs)
  | Tup items => STup (map (signature_of jax) items)
  end.

End Values.

Arguments Arr {tensor} a.
Arguments Vars {tensor} vs.
Arguments Tup {tensor} items.

(** Well-formed arguments of the step functions: the four-component and the
    three-component state tuples, and a batch. *)
Definition state4 {tensor : Type} (tv ntv ov mv : list tensor) : pyval tensor :=
  Tup [Vars tv; Vars ntv; Vars ov; Vars mv].

Definition state3 {tensor : Type} (tv ntv mv : list tensor) : pyval tensor :=
  Tup [Vars tv; Vars ntv; Vars mv].

Definition batch {tensor : Type} (x y : tensor) : pyval tensor :=
  Tup [Arr x; Arr y].

(** ** The mutable objects and the outer-loop monad *)

Section World.

Variable tensor : Type.

(** What the loops print. *)
Inductive line : Type :=
| TrainingLoss (step : nat) (loss : tensor)
| TrainingAccuracy (accuracy : tensor)
| ValidationLoss (step : nat) (loss : tensor)
| ValidationAccuracy (accuracy : tensor)
| SeenSoFar (samples : nat).

(** The values currently held by the variables of the model, of the
    optimizer and of the two metric objects, and the output so far. *)
Record world : Type := {
  model_trainable_variables : list tensor;
  model_non_trainable_variables : list tensor;
  optimizer_variables : list tensor;
  train_acc_variables : list tensor;
  val_acc_variables : list tensor;
  stdout : list line
}.

Definition set_model_trainable_variables (vs : list tensor) (w : world) : world :=
  {| model_trainable_variables := vs;
     model_non_trainable_variables := model_non_trainable_variables w;
     optimizer_variables := optimizer_variables w;
     train_acc_variables := train_acc_variables w;
     val_acc_variables := val_acc_variables w;
     stdout := stdout w |}.

Definition set_model_non_trainable_variables (vs : list tensor) (w : world) : world :=
  {| model_trainable_variables := model_trainable_variables w;
     model_non_trainable_variables := vs;
     optimizer_variables := optimizer_variables w;
     train_acc_variables := train_acc_variables w;
     val_acc_variables := val_acc_variables w;
     stdout := stdout w |}.

Definition set_optimizer_variables (vs : list tensor) (w : world) : world :=
  {| model_trainable_variables := model_trainable_variables w;
     model_non_trainable_variables := model_non_trainable_variables w;
     optimizer_variables := vs;
     train_acc_variables := train_acc_variables w;
     val_acc_variables := val_acc_variables w;
     stdout := stdout w |}.

Definition set_train_acc_variables (vs : list tensor) (w : world) : world :=
  {| model_trainable_variables := model_trainable_variables w;
     model_non_trainable_variables := model_non_trainable_variables w;
     optimizer_variables := optimizer_variables w;
     train_acc_variables := vs;
     val_acc_variables := val_acc_variables w;
     stdout := stdout w |}.

Definition set_val_acc_variables (vs : list tensor) (w : world) : world :=
  {| model_trainable_variables := model_trainable_variables w;
     model_non_trainable_variables := model_non_trainable_variables w;
     optimizer_variables := optimizer_variables w;
     train_acc_variables := train_acc_variables w;
     val_acc_variables := vs;
     stdout := stdout w |}.

Definition add_line (l : line) (w : world) : world :=
  {| model_trainable_variables := model_trainable_variables w;
     model_non_trainable_variables := model_non_trainable_variables w;
     optimizer_variables := optimizer_variables w;
     train_acc_variables := train_acc_variables w;
     val_acc_variables := val_acc_variables w;
     stdout := stdout w ++ [l] |}.

Definition M (A : Type) : Type := world -> result (A * world).

Definition mret {A : Type} (a : A) : M A := fun w => Ok (a, w).

Definition mbind {A B : Type} (c : M A) (k : A -> M B) : M B :=
  fun w => match c w with
           | Ok (a, w') => k a w'
           | Raise e => Raise e
           end.

(** A call of a pure function from the loop. *)
Definition lift {A : Type} (r : result A) : M A :=
  fun w => match r with
           | Ok a => Ok (a, w)
           | Raise e => Raise e
           end.

Definition gets {A : Type} (f : world -> A) : M A := fun w => Ok (f w, w).

Definition modify (f : world -> world) : M unit := fun w => Ok (tt, f w).

Definition print (l : line) : M unit := modify (add_line l).

(** The arrays of an iterable of arrays, as the [zip] loops read them. *)
Fixpoint arrays (l : list (pyval tensor)) : result (list tensor) :=
  match l with
  | [] => Ok []
  | v :: l' => a <- as_arr v ;; rest <- arrays l' ;; Ok (a :: rest)
  end.

Definition values_of (v : pyval tensor) : result (list tensor) :=
  l <- items_of v ;; arrays l.

Fixpoint dims_eqb (d1 d2 : list nat) : bool :=
  match d1, d2 with
  | [], [] => true
  | n1 :: d1', n2 :: d2' => Nat.eqb n1 n2 && dims_eqb d1' d2'
  | _, _ => false
  end.

(** [for variable, value in zip(variables, values): variable.assign(value)]
    on the values the variables hold: [zip] stops at the shorter sequence,
    [assign] refuses a value of another shape. *)
Fixpoint assign_values (jax : Jax tensor) (variables values : list tensor)
    : result (list tensor) :=
  match variables, values with
  | variable :: variables', value :: values' =>
      if dims_eqb (shape jax variable) (shape jax value)
      then rest <- assign_values jax variables' values' ;; Ok (value :: rest)
      else Raise ValueError
  | _, _ => Ok variables
  end.

End World.

Arguments mret {tensor A} a.
Arguments gets {tensor A} f.
Arguments lift {tensor A} r.

Declare Scope driver_scope.
Delimit Scope driver_scope with drv.

Notation "x <- c ;; k" := (mbind c (fun x => k))
  (at level 61, c at next level, right associativity) : driver_scope.
Notation "' pat <- c ;; k" := (mbind c (fun x => match x with pat => k end))
  (at level 61, pat pattern, c at next level, right associativity) : driver_scope.
Notation "c ;;; k" := (mbind c (fun _ => k))
  (at level 61, right associativity) : driver_scope.

Definition batch_size : nat := 32.

(** ** A first end-to-end example (cells 9 to 19) *)

Module FirstExample.

Section Cells.

Variable tensor : Type.
Variable jax : Jax tensor.
Variable model : Model tensor.
Variable loss_fn : Loss tensor.
Variable optimizer : Optimizer tensor.

(** Cell 9. *)
Definition compute_loss_and_updates (args : list (pyval tensor))
    : result (pyval tensor) :=
  match args with
  | [trainable_variables; non_trainable_variables; x; y] =>
      out <- stateless_call model trainable_variables non_trainable_variables
               x (Some true) false ;;
      '(y_pred, non_trainable_variables) <- unpack2 out ;;
      loss <- call_loss loss_fn y y_pred ;;
      Ok (Tup [loss; non_trainable_variables])
  | _ => Raise TypeError
  end.

(** Cell 11. *)
Definition grad_fn : list (pyval tensor) -> result (pyval tensor) :=
  value_and_grad jax compute_loss_and_updates true.

(** Cell 13. *)
Definition train_step_eager (state data : pyval tensor) : result (pyval tensor) :=
  '(trainable_variables, non_trainable_variables, optimizer_variables) <-
     unpack3 state ;;
  '(x, y) <- unpack2 data ;;
  out <- grad_fn [trainable_variables; non_trainable_variables; x; y] ;;
  '(value, grads) <- unpack2 out ;;
  '(loss, non_trainable_variables) <- unpack2 value ;;
  applied <- stateless_apply optimizer optimizer_variables grads
               trainable_variables ;;
  '(trainable_variables, optimizer_variables) <- unpack2 applied ;;
  Ok (Tup [loss;
           Tup [trainable_variables; non_trainable_variables;
                optimizer_variables]]).

(** Cell 15: the same body under [@jax.jit]. *)
Definition train_step : pyval tensor -> pyval tensor -> result (pyval tensor) :=
  jit train_step_eager.

(** Cell 17, the lines before the loop: [optimizer.build], then the state
    tuple of the values the variables hold. *)
Definition initial_state : M tensor (pyval tensor) :=
  (modify (fun w => set_optimizer_variables
                      (build_variables optimizer (model_trainable_variables w)) w) ;;;
   trainable_variables <- gets (@model_trainable_variables tensor) ;;
   non_trainable_variables <- gets (@model_non_trainable_variables tensor) ;;
   optimizer_variables <- gets (@optimizer_variables tensor) ;;
   mret (Tup [Vars trainable_variables; Vars non_trainable_variables;
              Vars optimizer_variables]))%drv.

(** Cell 17, the training loop; it returns the last [state]. *)
Fixpoint training_loop (step : nat) (train_dataset : list (tensor * tensor))
    (state : pyval tensor) : M tensor (pyval tensor) :=
  match train_dataset with
  | [] => mret state
  | (x, y) :: rest =>
      (out <- lift (train_step state (Tup [Arr x; Arr y])) ;;
       '(loss, state) <- lift (unpack2 out) ;;
       (if Nat.eqb (step mod 100) 0
        then (l <- lift (float_of jax loss) ;;
              print (TrainingLoss step l) ;;;
              print (SeenSoFar tensor ((step + 1) * batch_size)))
        else mret tt) ;;;
       training_loop (S step) rest state)%drv
  end.

(** Cell 19: attaching the new values back to the model. *)
Definition reattach (state : pyval tensor) : M tensor unit :=
  ('(trainable_variables, non_trainable_variables, optimizer_variables) <-
      lift (unpack3 state) ;;
   values <- lift (values_of trainable_variables) ;;
   variables <- gets (@model_trainable_variables tensor) ;;
   assigned <- lift (assign_values jax variables values) ;;
   modify (set_model_trainable_variables assigned) ;;;
   values <- lift (values_of non_trainable_variables) ;;
   variables <- gets (@model_non_trainable_variables tensor) ;;
   assigned <- lift (assign_values jax variables values) ;;
   modify (set_model_non_trainable_variables assigned))%drv.

(** Cells 17 and 19 in sequence. *)
Definition program (train_dataset : list (tensor * tensor))
    : M tensor (pyval tensor) :=
  (state <- initial_state ;;
   state <- training_loop 0 train_dataset state ;;
   reattach state ;;;
   mret state)%drv.

End Cells.

End FirstExample.

(** ** Low-level handling of metrics (cells 21 to 25) *)

Module WithMetrics.

Section Cells.

Variable tensor : Type.
Variable jax : Jax tensor.
Variable model : Model tensor.
Variable loss_fn : Loss tensor.
Variable optimizer : Optimizer tensor.
Variable train_acc_metric : Metric tensor.
Variable val_acc_metric : Metric tensor.

(** Cell 21. *)
Definition compute_loss_and_updates (args : list (pyval tensor))
    : result (pyval tensor) :=
  match args with
  | [trainable_variables; non_trainable_variables; metric_variables; x; y] =>
      out <- stateless_call model trainable_variables non_trainable_variables
               x None false ;;
      '(y_pred, non_trainable_variables) <- unpack2 out ;;
      loss <- call_loss loss_fn y y_pred ;;
      metric_variables <- stateless_update_state train_acc_metric
                            metric_variables y y_pred ;;
      Ok (Tup [loss; Tup [non_trainable_variables; metric_variables]])
  | _ => Raise TypeError
  end.

Definition grad_fn : list (pyval tensor) -> result (pyval tensor) :=
  value_and_grad jax compute_loss_and_updates true.

(** The body of [train_step]; [grad_fn] is the global it looks up when it
    is called. *)
Definition train_step_body
    (grad_fn : list (pyval tensor) -> result (pyval tensor))
    (state data : pyval tensor) : result (pyval tensor) :=
  '(trainable_variables, non_trainable_variables, optimizer_variables,
    metric_variables) <- unpack4 state ;;
  '(x, y) <- unpack2 data ;;
  out <- grad_fn [trainable_variables; non_trainable_variables;
                  metric_variables; x; y] ;;
  '(value, grads) <- unpack2 out ;;
  '(loss, aux) <- unpack2 value ;;
  '(non_trainable_variables, metric_variables) <- unpack2 aux ;;
  applied <- stateless_apply optimizer optimizer_variables grads
               trainable_variables ;;
  '(trainable_variables, optimizer_variables) <- unpack2 applied ;;
  Ok (Tup [loss;
           Tup [trainable_variables; non_trainable_variables;
                optimizer_variables; metric_variables]]).

Definition train_step : pyval tensor -> pyval tensor -> result (pyval tensor) :=
  jit (train_step_body grad_fn).

(** Cell 23. *)
Definition eval_step : pyval tensor -> pyval tensor -> result (pyval tensor) :=
  jit (fun state data =>
    '(trainable_variables, non_trainable_variables, metric_variables) <-
       unpack3 state ;;
    '(x, y) <- unpack2 data ;;
    out <- stateless_call model trainable_variables non_trainable_variables
             x None false ;;
    '(y_pred, non_trainable_variables) <- unpack2 out ;;
    loss <- call_loss loss_fn y y_pred ;;
    metric_variables <- stateless_update_state val_acc_metric
                          metric_variables y y_pred ;;
    Ok (Tup [loss;
             Tup [trainable_variables; non_trainable_variables;
                  metric_variables]])).

(** Cell 25, the lines before the training loop.  The tuple is built from
    the variable objects themselves; the first step reads the values they
    hold, and nothing is assigned to them before that step has replaced the
    tuple by arrays, so the state is the tuple of the values read here. *)
Definition initial_state : M tensor (pyval tensor) :=
  (modify (fun w => set_optimizer_variables
                      (build_variables optimizer (model_trainable_variables w)) w) ;;;
   trainable_variables <- gets (@model_trainable_variables tensor) ;;
   non_trainable_variables <- gets (@model_non_trainable_variables tensor) ;;
   optimizer_variables <- gets (@optimizer_variables tensor) ;;
   metric_variables <- gets (@train_acc_variables tensor) ;;
   mret (Tup [Vars trainable_variables; Vars non_trainable_variables;
              Vars optimizer_variables; Vars metric_variables]))%drv.

(** The logging block of the training loop. *)
Definition log_training (step : nat) (loss state : pyval tensor) : M tensor unit :=
  (l <- lift (float_of jax loss) ;;
   print (TrainingLoss step l) ;;;
   '(_, _, _, metric_variables) <- lift (unpack4 state) ;;
   values <- lift (values_of metric_variables) ;;
   variables <- gets (@train_acc_variables tensor) ;;
   assigned <- lift (assign_values jax variables values) ;;
   modify (set_train_acc_variables assigned) ;;;
   current <- gets (@train_acc_variables tensor) ;;
   print (TrainingAccuracy (result_of train_acc_metric current)) ;;;
   print (SeenSoFar tensor ((step + 1) * batch_size)))%drv.

(** Cell 25, the training loop. *)
Fixpoint training_loop (step : nat) (train_dataset : list (tensor * tensor))
    (state : pyval tensor) : M tensor (pyval tensor) :=
  match train_dataset with
  | [] => mret state
  | (x, y) :: rest =>
      (out <- lift (train_step state (Tup [Arr x; Arr y])) ;;
       '(loss, state) <- lift (unpack2 out) ;;
       (if Nat.eqb (step mod 100) 0
        then log_training step loss state
        else mret tt) ;;;
       training_loop (S step) rest state)%drv
  end.

(** Cell 25, the lines between the two loops. *)
Definition eval_state (state : pyval tensor) : M tensor (pyval tensor) :=
  (metric_variables <- gets (fun w => Vars (val_acc_variables w)) ;;
   '(trainable_variables, non_trainable_variables, optimizer_variables,
     metric_variables) <- lift (unpack4 state) ;;
   mret (Tup [trainable_variables; non_trainable_variables;
              metric_variables]))%drv.

(** The logging block of the evaluation loop. *)
Definition log_validation (step : nat) (loss state : pyval tensor) : M tensor unit :=
  (l <- lift (float_of jax loss) ;;
   print (ValidationLoss step l) ;;;
   '(_, _, metric_variables) <- lift (unpack3 state) ;;
   values <- lift (values_of metric_variables) ;;
   variables <- gets (@val_acc_variables tensor) ;;
   assigned <- lift (assign_values jax variables values) ;;
   modify (set_val_acc_variables assigned) ;;;
   current <- gets (@val_acc_variables tensor) ;;
   print (ValidationAccuracy (result_of val_acc_metric current)) ;;;
   print (SeenSoFar tensor ((step + 1) * batch_size)))%drv.

(** Cell 25, the evaluation loop. *)
Fixpoint eval_loop (step : nat) (val_dataset : list (tensor * tensor))
    (state : pyval tensor) : M tensor (pyval tensor) :=
  match val_dataset with
  | [] => mret state
  | (x, y) :: rest =>
      (out <- lift (eval_step state (Tup [Arr x; Arr y])) ;;
       '(loss, state) <- lift (unpack2 out) ;;
       (if Nat.eqb (step mod 100) 0
        then log_validation step loss state
        else mret tt) ;;;
       eval_loop (S step) rest state)%drv
  end.

(** Cell 25 as a whole; it returns the state after each of the loops. *)
Definition program (train_dataset val_dataset : list (tensor * tensor))
    : M tensor (pyval tensor * pyval tensor) :=
  (state <- initial_state ;;
   trained <- training_loop 0 train_dataset state ;;
   state <- eval_state trained ;;
   evaluated <- eval_loop 0 val_dataset state ;;
   mret (trained, evaluated))%drv.

End Cells.

End WithMetrics.

(** ** Low-level handling of losses tracked by the model (cell 31) *)

Module TrackedLosses.

Section Cells.

Variable tensor : Type.
Variable jax : Jax tensor.
Variable model : Model tensor.
Variable loss_fn : Loss tensor.
Variable optimizer : Optimizer tensor.
Variable train_acc_metric : Metric tensor.

(** Cell 31. *)
Definition compute_loss_and_updates (args : list (pyval tensor))
    : result (pyval tensor) :=
  match args with
  | [trainable_variables; non_trainable_variables; metric_variables; x; y] =>
      out <- stateless_call model trainable_variables non_trainable_variables
               x None true ;;
      '(y_pred, non_trainable_variables, losses) <- unpack3 out ;;
      loss <- call_loss loss_fn y y_pred ;;
      some <- truthy losses ;;
      loss <- (if some : bool
               then total <- jnp_sum jax losses ;;
                    l <- as_arr loss ;;
                    s <- as_arr total ;;
                    Ok (Arr (add jax l s))
               else Ok loss) ;;
      metric_variables <- stateless_update_state train_acc_metric
                            metric_variables y y_pred ;;
      Ok (Tup [loss; non_trainable_variables; metric_variables])
  | _ => Raise TypeError
  end.

(** The gradient function and the training step of cell 21, evaluated again
    now that [compute_loss_and_updates] is the function of cell 31. *)
Definition grad_fn : list (pyval tensor) -> result (pyval tensor) :=
  value_and_grad jax compute_loss_and_updates true.

Definition train_step : pyval tensor -> pyval tensor -> result (pyval tensor) :=
  jit (WithMetrics.train_step_body optimizer grad_fn).

End Cells.

End TrackedLosses.

(** ** The metric accumulator *)

Module MetricSpec.

Section Accuracy.

Variable target : Type.
Variable prediction : Type.

(** Whether a prediction counts as correct for its target. *)
Variable hit : target -> prediction -> bool.

(** Modelled from the spec: the metric accumulator collection, which is
    Keras code and not in the notebook.  It holds partial sums
    (correct-count, total-count) that the metric later reduces into a
    scalar. *)
Record accum : Type := {
  correct : Z;
  total : Z
}.

(** Modelled from the spec: [reset() -> initial_metric_accum], the zero
    state. *)
Definition reset : accum := {| correct := 0; total := 0 |}.

(** The number of samples of a batch predicted correctly. *)
Fixpoint hits (targets : list target) (predictions : list prediction) : Z :=
  match targets, predictions with
  | t :: targets', p :: predictions' =>
      ((if hit t p then 1 else 0) + hits targets' predictions')%Z
  | _, _ => 0%Z
  end.

(** Modelled from the spec: [update(metric_accum, targets, predictions)
    -> updated_metric_accum], pure and additive: it accumulates rather than
    replaces. *)
Definition update (a : accum) (targets : list target)
    (predictions : list prediction) : accum :=
  {| correct := correct a + hits targets predictions;
     total := total a + Z.of_nat (length targets) |}.

(** Modelled from the spec: [reduce(metric_accum) -> scalar], the ratio of
    correct to total (0 while nothing has been counted). *)
Definition reduce (a : accum) : QArith_base.Q :=
  if Z.eqb (total a) 0
  then QArith_base.Qmake 0 1
  else QArith_base.Qmake (correct a) (Z.to_pos (total a)).

End Accuracy.

End MetricSpec.

(** ** The step functions among the objects

    Cells 21 and 23 once more, with nothing assumed of the calls they
    make: every method the two step functions call is a computation of its
    own that may read and write the world, as a method of a Python object
    may.  Whether a step function depends on the world, or changes it, is
    then a matter of what its body does with these calls. *)

Module Ambient.

Section Cells.

Variable tensor : Type.

(** The methods the two cells call, in the order of their first use:
    [model.stateless_call], [loss_fn], the [stateless_update_state] of the
    two metrics, [optimizer.stateless_apply], [jax.value_and_grad]. *)
Record Methods : Type := {
  model_stateless_call :
    pyval tensor -> pyval tensor -> pyval tensor -> option bool -> bool ->
    M tensor (pyval tensor);
  loss_fn_call : pyval tensor -> pyval tensor -> M tensor (pyval tensor);
  train_acc_stateless_update_state :
    pyval tensor -> pyval tensor -> pyval tensor -> M tensor (pyval tensor);
  val_acc_stateless_update_state :
    pyval tensor -> pyval tensor -> pyval tensor -> M tensor (pyval tensor);
  optimizer_stateless_apply :
    pyval tensor -> pyval tensor -> pyval tensor -> M tensor (pyval tensor);
  jax_value_and_grad :
    (list (pyval tensor) -> M tensor (pyval tensor)) -> bool ->
    list (pyval tensor) -> M tensor (pyval tensor)
}.

Variable methods : Methods.

(** Cell 21. *)
Definition compute_loss_and_updates (args : list (pyval tensor))
    : M tensor (pyval tensor) :=
  match args with
  | [trainable_variables; non_trainable_variables; metric_variables; x; y] =>
      (out <- model_stateless_call methods trainable_variables
                non_trainable_variables x None false ;;
       '(y_pred, non_trainable_variables) <- lift (unpack2 out) ;;
       loss <- loss_fn_call methods y y_pred ;;
       metric_variables <- train_acc_stateless_update_state methods
                             metric_variables y y_pred ;;
       mret (Tup [loss; Tup [non_trainable_variables; metric_variables]]))%drv
  | _ => lift (Raise TypeError)
  end.

Definition grad_fn : list (pyval tensor) -> M tensor (pyval tensor) :=
  jax_value_and_grad methods compute_loss_and_updates true.

Definition train_step : pyval tensor -> pyval tensor -> M tensor (pyval tensor) :=
  jit (fun state data =>
    ('(trainable_variables, non_trainable_variables, optimizer_variables,
       metric_variables) <- lift (unpack4 state) ;;
     '(x, y) <- lift (unpack2 data) ;;
     out <- grad_fn [trainable_variables; non_trainable_variables;
                     metric_variables; x; y] ;;
     '(value, grads) <- lift (unpack2 out) ;;
     '(loss, aux) <- lift (unpack2 value) ;;
     '(non_trainable_variables, metric_variables) <- lift (unpack2 aux) ;;
     applied <- optimizer_stateless_apply methods optimizer_variables grads
                  trainable_variables ;;
     '(trainable_variables, optimizer_variables) <- lift (unpack2 applied) ;;
     mret (Tup [loss;
                Tup [trainable_variables; non_trainable_variables;
                     optimizer_variables; metric_variables]]))%drv).

(** Cell 23. *)
Definition eval_step : pyval tensor -> pyval tensor -> M tensor (pyval tensor) :=
  jit (fun state data =>
    ('(trainable_variables, non_trainable_variables, metric_variables) <-
        lift (unpack3 state) ;;
     '(x, y) <- lift (unpack2 data) ;;
     out <- model_stateless_call methods trainable_variables
              non_trainable_variables x None false ;;
     '(y_pred, non_trainable_variables) <- lift (unpack2 out) ;;
     loss <- loss_fn_call methods y y_pred ;;
     metric_variables <- val_acc_stateless_update_state methods
                           metric_variables y y_pred ;;
     mret (Tup [loss;
                Tup [trainable_variables; non_trainable_variables;
                     metric_variables]]))%drv).

End Cells.

(** What a run returned, the final world left aside. *)
Definition outcome {tensor A : Type} (r : result (A * world tensor)) : result A :=
  match r with
  | Ok (a, _) => Ok a
  | Raise e => Raise e
  end.

(** The methods of collaborators that are the pure operations of the
    records above: they return what the operation returns and leave the
    world alone.  [jax.value_and_grad] runs the function it is given in the
    world of the call. *)
Definition pure_methods {tensor : Type} (jax : Jax tensor) (model : Model tensor)
    (loss_fn : Loss tensor) (optimizer : Optimizer tensor)
    (train_acc_metric val_acc_metric : Metric tensor) : Methods tensor :=
  {| model_stateless_call := fun tv ntv x training return_losses =>
       lift (stateless_call model tv ntv x training return_losses);
     loss_fn_call := fun y y_pred => lift (call_loss loss_fn y y_pred);
     train_acc_stateless_update_state := fun mv y y_pred =>
       lift (stateless_update_state train_acc_metric mv y y_pred);
     val_acc_stateless_update_state := fun mv y y_pred =>
       lift (stateless_update_state val_acc_metric mv y y_pred);
     optimizer_stateless_apply := fun ov grads tv =>
       lift (stateless_apply optimizer ov grads tv);
     jax_value_and_grad := fun f has_aux args w =>
       lift (value_and_grad jax (fun a => outcome (f a w)) has_aux args) w |}.

End Ambient.

(** A computation that returns the same in every world and leaves the world
    as it found it. *)
Definition stateless {tensor A : Type} (c : M tensor A) : Prop :=
  exists r : result A, forall w, c w = lift r w.

(** The call contracts of the stateless methods: each is stateless on all
    arguments, and [jax.value_and_grad] is when the function it is given
    is. *)
Definition stateless_methods {tensor : Type} (m : Ambient.Methods tensor) : Prop :=
  (forall tv ntv x training return_losses,
     stateless (Ambient.model_stateless_call m tv ntv x training return_losses)) /\
  (forall y y_pred, stateless (Ambient.loss_fn_call m y y_pred)) /\
  (forall mv y y_pred,
     stateless (Ambient.train_acc_stateless_update_state m mv y y_pred)) /\
  (forall mv y y_pred,
     stateless (Ambient.val_acc_stateless_update_state m mv y y_pred)) /\
  (forall ov grads tv,
     stateless (Ambient.optimizer_stateless_apply m ov grads tv)) /\
  (forall f,
     (forall args, stateless (f args)) ->
     forall has_aux args, stateless (Ambient.jax_value_and_grad m f has_aux args)).

(** ** A small instance

    Integer vectors for arrays, a one-feature linear model, squared error,
    forward differences for gradients, plain descent that also sums the
    gradients it has seen, and accuracy counted as above.  It gives the
    statements below inputs they can be run on. *)

Module Toy.

Definition tensor : Type := list Z.

Definition total_of (t : tensor) : Z := fold_right Z.add 0%Z t.

Definition zip_with {A B C : Type} (f : A -> B -> C) (l1 : list A) (l2 : list B)
    : list C :=
  map (fun ab => f (fst ab) (snd ab)) (combine l1 l2).

Definition scalar_of (t : tensor) : result Z :=
  match t with
  | [z] => Ok z
  | _ => Raise TypeError
  end.

Fixpoint collect {A : Type} (l : list (result A)) : result (list A) :=
  match l with
  | [] => Ok []
  | r :: l' => a <- r ;; rest <- collect l' ;; Ok (a :: rest)
  end.

Fixpoint bump_at (j : nat) (t : tensor) : tensor :=
  match t, j with
  | [], _ => []
  | z :: t', O => (z + 1)%Z :: t'
  | z :: t', S j' => z :: bump_at j' t'
  end.

Fixpoint bump (i j : nat) (p : list tensor) : list tensor :=
  match p, i with
  | [], _ => []
  | t :: p', O => bump_at j t :: p'
  | t :: p', S i' => t :: bump i' j p'
  end.

(** Forward differences, one per entry of [p]. *)
Definition finite_difference (f : list tensor -> result tensor) (p : list tensor)
    : result (list tensor) :=
  base <- (r <- f p ;; scalar_of r) ;;
  collect
    (map (fun i =>
            collect
              (map (fun j => v <- (r <- f (bump i j p) ;; scalar_of r) ;;
                             Ok (v - base)%Z)
                   (seq 0 (length (nth i p [])))))
         (seq 0 (length p))).

Definition jax : Jax tensor :=
  {| shape := fun t => [length t];
     is_scalar := fun t => Nat.eqb (length t) 1;
     grad := finite_difference;
     numpy_sum := fun t => [total_of t];
     add := zip_with Z.add |}.

(** [a * x + b] on every sample; a call counter as non-trainable state; the
    sum of the predictions as tracked loss when [regularized]. *)
Definition model (regularized : bool) : Model tensor :=
  {| forward := fun tv ntv x _ =>
       match tv, ntv with
       | [[a; b]], [[n]] =>
           let y_pred := map (fun xi => (a * xi + b)%Z) x in
           Ok (y_pred, [[(n + 1)%Z]],
               if regularized then [[total_of y_pred]] else [])
       | _, _ => Raise ValueError
       end |}.

Definition loss_fn : Loss tensor :=
  fun y y_pred =>
    if Nat.eqb (length y) (length y_pred)
    then Ok [total_of (zip_with (fun t p => ((p - t) * (p - t))%Z) y y_pred)]
    else Raise ValueError.

Definition dims (vs : list tensor) : list nat := map (@length Z) vs.

Definition optimizer : Optimizer tensor :=
  {| build_variables := map (map (fun _ => 0%Z));
     apply_gradients := fun ov g tv =>
       if dims_eqb (dims g) (dims tv) && dims_eqb (dims g) (dims ov)
       then Ok (zip_with (zip_with Z.sub) tv g, zip_with (zip_with Z.add) ov g)
       else Raise ValueError |}.

Definition accuracy : Metric tensor :=
  {| initial_variables := [[0%Z]; [0%Z]];
     update_state := fun mv y y_pred =>
       match mv with
       | [[c]; [t]] =>
           let a := MetricSpec.update Z.eqb
                      {| MetricSpec.correct := c; MetricSpec.total := t |}
                      y y_pred in
           Ok [[MetricSpec.correct a]; [MetricSpec.total a]]
       | _ => Raise ValueError
       end;
     result_of := fun mv =>
       match mv with
       | [[c]; [t]] => [(100 * c / t)%Z]
       | _ => []
       end |}.

(** Freshly built objects: slope 2, intercept 0, counter 0, zeroed metrics. *)
Definition fresh : world tensor :=
  {| model_trainable_variables := [[2; 0]%Z];
     model_non_trainable_variables := [[0%Z]];
     optimizer_variables := [];
     train_acc_variables := initial_variables accuracy;
     val_acc_variables := initial_variables accuracy;
     stdout := [] |}.

Definition train_dataset : list (tensor * tensor) := [([1; 2]%Z, [2; 5]%Z)].

Definition val_dataset : list (tensor * tensor) := [([1]%Z, [1]%Z)].

(** The arguments of the first step: the state cell 25 builds from [fresh]
    once the optimizer is built, and the batch of [train_dataset]. *)
Definition first_state : pyval tensor :=
  state4 [[2; 0]%Z] [[0%Z]] [[0; 0]%Z] [[0%Z]; [0%Z]].

Definition first_eval_state : pyval tensor :=
  state3 [[2; 0]%Z] [[0%Z]] [[0%Z]; [0%Z]].

Definition first_batch : pyval tensor := batch [1; 2]%Z [2; 5]%Z.

(** What the first step returns on them. *)
Definition first_result : pyval tensor :=
  Tup [Arr [1%Z]; state4 [[1; 0]%Z] [[1%Z]] [[1; 0]%Z] [[1%Z]; [2%Z]]].

Definition first_eval_result : pyval tensor :=
  Tup [Arr [1%Z]; state3 [[2; 0]%Z] [[1%Z]] [[1%Z]; [2%Z]]].

(** The objects after cells 17 and 19, and after cell 25, run from [fresh]
    on the two datasets. *)
Definition after_first_program : world tensor :=
  {| model_trainable_variables := [[1; 0]%Z];
     model_non_trainable_variables := [[1%Z]];
     optimizer_variables := [[0; 0]%Z];
     train_acc_variables := [[0%Z]; [0%Z]];
     val_acc_variables := [[0%Z]; [0%Z]];
     stdout := [TrainingLoss 0 [1%Z]; SeenSoFar tensor 32] |}.

Definition after_program : world tensor :=
  {| model_trainable_variables := [[2; 0]%Z];
     model_non_trainable_variables := [[0%Z]];
     optimizer_variables := [[0; 0]%Z];
     train_acc_variables := [[1%Z]; [2%Z]];
     val_acc_variables := [[2%Z]; [3%Z]];
     stdout := [TrainingLoss 0 [1%Z]; TrainingAccuracy [50%Z];
                SeenSoFar tensor 32; ValidationLoss 0 [0%Z];
                ValidationAccuracy [66%Z]; SeenSoFar tensor 32] |}.

(** The methods of the small instance. *)
Definition methods : Ambient.Methods tensor :=
  Ambient.pure_methods jax (model false) loss_fn optimizer accuracy accuracy.

(** The same, except that the model is called on the values its own
    variables hold, as [model(x)] would, and not on the ones handed in. *)
Definition methods_of_stateful_model : Ambient.Methods tensor :=
  {| Ambient.model_stateless_call := fun _ ntv x training return_losses w =>
       lift (stateless_call (model false) (Vars (model_trainable_variables w))
               ntv x training return_losses) w;
     Ambient.loss_fn_call := Ambient.loss_fn_call methods;
     Ambient.train_acc_stateless_update_state :=
       Ambient.train_acc_stateless_update_state methods;
     Ambient.val_acc_stateless_update_state :=
       Ambient.val_acc_stateless_update_state methods;
     Ambient.optimizer_stateless_apply := Ambient.optimizer_stateless_apply methods;
     Ambient.jax_value_and_grad := Ambient.jax_value_and_grad methods |}.

(** The loop touching the objects between two invocations of a step. *)
Definition meddle (k : nat) : M tensor unit :=
  (modify (set_model_trainable_variables [[Z.of_nat k; 7%Z]]) ;;;
   modify (set_train_acc_variables [[Z.of_nat k]; [9%Z]]) ;;;
   print (SeenSoFar tensor k))%drv.

End Toy.


(** ** Vocabulary for the statements *)

Section Runs.

Variable tensor : Type.

(** [n] invocations of [call], the loop running [between k] after each. *)
Fixpoint repeatedly {A : Type} (n : nat) (between : nat -> M tensor unit)
    (call : M tensor A) : M tensor (list A) :=
  match n with
  | O => mret []
  | S n' =>
      (r <- call ;;
       between n' ;;;
       rs <- repeatedly n' between call ;;
       mret (r :: rs))%drv
  end.

(** [c] leaves the part [f] of the world as it found it. *)
Definition preserves {A X : Type} (f : world tensor -> X) (c : M tensor A) : Prop :=
  forall w a w', c w = Ok (a, w') -> f w' = f w.

End Runs.

(** The call contracts of the collaborators on shapes: what a collection
    looks like after the call that updates it. *)
Definition model_keeps_shapes {tensor : Type} (jax : Jax tensor)
    (model : Model tensor) : Prop :=
  forall tv ntv x training y_pred ntv' losses,
    forward model tv ntv x training = Ok (y_pred, ntv', losses) ->
    map (shape jax) ntv' = map (shape jax) ntv.

Definition optimizer_keeps_shapes {tensor : Type} (jax : Jax tensor)
    (optimizer : Optimizer tensor) : Prop :=
  forall ov g tv tv' ov',
    apply_gradients optimizer ov g tv = Ok (tv', ov') ->
    map (shape jax) tv' = map (shape jax) tv /\
    map (shape jax) ov' = map (shape jax) ov.

Definition metric_keeps_shapes {tensor : Type} (jax : Jax tensor)
    (metric : Metric tensor) : Prop :=
  forall mv y y_pred mv',
    update_state metric mv y y_pred = Ok mv' ->
    map (shape jax) mv' = map (shape jax) mv.

(** ** Preparing the data (cell 5) *)

Set Warnings "-abstract-large-number".

Module DataPreparation.

Section Split.

Variable row : Type.

(** [a[-n:]]: the last [n] rows, all of them when there are fewer; [-0] is
    [0], so [a[-0:]] is all of [a]. *)
Definition last_rows (n : nat) (a : list row) : list row :=
  if Nat.eqb n 0 then a else skipn (length a - n) a.

(** [a[:-n]]: all but the last [n] rows, none when there are fewer;
    [a[:-0]] is [a[:0]], empty. *)
Definition without_last_rows (n : nat) (a : list row) : list row :=
  if Nat.eqb n 0 then [] else firstn (length a - n) a.

End Split.

(** Reserve 10,000 samples for validation: the four assignments, in their
    order.  It gives [(x_train, y_train, x_val, y_val)]. *)
Definition reserve_validation {input label : Type}
    (x_train : list input) (y_train : list label)
    : list input * list label * list input * list label :=
  let x_val := last_rows 10000 x_train in
  let y_val := last_rows 10000 y_train in
  let x_train := without_last_rows 10000 x_train in
  let y_train := without_last_rows 10000 y_train in
  (x_train, y_train, x_val, y_val).

End DataPreparation.

(** ** More vocabulary: a loop without its world, and what was printed *)

(** The states a loop goes through when nothing but the step function is
    looked at: [loss, state = step_fn(state, data)] for each batch. *)
Fixpoint fold_steps {tensor : Type}
    (step_fn : pyval tensor -> pyval tensor -> result (pyval tensor))
    (dataset : list (tensor * tensor)) (state : pyval tensor)
    : result (pyval tensor) :=
  match dataset with
  | [] => Ok state
  | (x, y) :: rest =>
      out <- step_fn state (Tup [Arr x; Arr y]) ;;
      '(loss, state) <- unpack2 out ;;
      fold_steps step_fn rest state
  end.

(** The steps of the loss lines and the sample counts of the "Seen so far"
    lines of an output. *)
Definition loss_step {tensor : Type} (l : line tensor) : list nat :=
  match l with
  | TrainingLoss step _ => [step]
  | ValidationLoss step _ => [step]
  | _ => []
  end.

Definition seen_samples {tensor : Type} (l : line tensor) : list nat :=
  match l with
  | SeenSoFar _ samples => [samples]
  | _ => []
  end.

(** The steps of a loop that starts at [step] and runs [n] batches at which
    it logs. *)
Definition logged_steps (step n : nat) : list nat :=
  filter (fun k => Nat.eqb (k mod 100) 0) (seq step n).

(** The call contract of the loss: what it returns is a scalar. *)
Definition loss_is_scalar {tensor : Type} (jax : Jax tensor)
    (loss_fn : Loss tensor) : Prop :=
  forall y y_pred l, loss_fn y y_pred = Ok l -> is_scalar jax l = true.

(** The shapes of the variables of the two metric objects. *)
Definition metric_shapes {tensor : Type} (jax : Jax tensor) (w : world tensor)
    : list (list nat) * list (list nat) :=
  (map (shape jax) (train_acc_variables w), map (shape jax) (val_acc_variables w)).

(** * Properties *)

(** ** The step functions, unfolded on well-formed arguments *)

Section StepEquations.

Variable tensor : Type.
Variable jax : Jax tensor.
Variable model : Model tensor.
Variable loss_fn : Loss tensor.
Variable optimizer : Optimizer tensor.
Variable train_acc_metric : Metric tensor.
Variable val_acc_metric : Metric tensor.

Lemma arrays_map_Arr (vs : list tensor) : arrays (map Arr vs) = Ok vs.
Proof.
  induction vs as [|v vs IH]; cbn; [reflexivity|].
  rewrite IH. reflexivity.
Qed.

Lemma values_of_Vars (vs : list tensor) : values_of (Vars vs) = Ok vs.
Proof. unfold values_of. cbn. apply arrays_map_Arr. Qed.

(** What [jax.value_and_grad] differentiates in cell 21: the loss as a
    function of the trainable values, everything else held fixed. *)
Lemma differentiated_scalar (ntv mv : list tensor) (x y : tensor) (p : list tensor) :
  scalar_output (WithMetrics.compute_loss_and_updates model loss_fn train_acc_metric)
    true [Vars ntv; Vars mv; Arr x; Arr y] p =
  ('(y_pred, _, _) <- forward model p ntv x None ;;
   l <- loss_fn y y_pred ;;
   _ <- update_state train_acc_metric mv y y_pred ;;
   Ok l).
Proof.
  unfold scalar_output, WithMetrics.compute_loss_and_updates, stateless_call.
  cbn.
  destruct (forward model p ntv x None) as [[[y_pred ntv'] ls]|e]; cbn; [|reflexivity].
  destruct (loss_fn y y_pred) as [l|e]; cbn; [|reflexivity].
  destruct (update_state train_acc_metric mv y y_pred) as [mv'|e]; reflexivity.
Qed.

(** [train_step] of cell 21 on a four-component state and a batch. *)
Lemma train_step_eq (tv ntv ov mv : list tensor) (x y : tensor) :
  WithMetrics.train_step jax model loss_fn optimizer train_acc_metric
    (state4 tv ntv ov mv) (batch x y) =
  ('(y_pred, ntv', _) <- forward model tv ntv x None ;;
   l <- loss_fn y y_pred ;;
   mv' <- update_state train_acc_metric mv y y_pred ;;
   g <- grad jax
          (scalar_output
             (WithMetrics.compute_loss_and_updates model loss_fn train_acc_metric)
             true [Vars ntv; Vars mv; Arr x; Arr y]) tv ;;
   '(tv', ov') <- apply_gradients optimizer ov g tv ;;
   Ok (Tup [Arr l; state4 tv' ntv' ov' mv'])).
Proof.
  unfold WithMetrics.train_step, jit, WithMetrics.train_step_body,
    WithMetrics.grad_fn, value_and_grad, WithMetrics.compute_loss_and_updates,
    stateless_call, state4, batch.
  cbn.
  destruct (forward model tv ntv x None) as [[[y_pred ntv'] ls]|e]; cbn; [|reflexivity].
  destruct (loss_fn y y_pred) as [l|e]; cbn; [|reflexivity].
  destruct (update_state train_acc_metric mv y y_pred) as [mv'|e]; cbn; [|reflexivity].
  match goal with |- context [grad jax ?f tv] => destruct (grad jax f tv) as [g|e] end;
    cbn; [|reflexivity].
  destruct (apply_gradients optimizer ov g tv) as [[tv' ov']|e]; reflexivity.
Qed.

(** [eval_step] of cell 23 on a three-component state and a batch. *)
Lemma eval_step_eq (tv ntv mv : list tensor) (x y : tensor) :
  WithMetrics.eval_step model loss_fn val_acc_metric (state3 tv ntv mv) (batch x y) =
  ('(y_pred, ntv', _) <- forward model tv ntv x None ;;
   l <- loss_fn y y_pred ;;
   mv' <- update_state val_acc_metric mv y y_pred ;;
   Ok (Tup [Arr l; state3 tv ntv' mv'])).
Proof.
  unfold WithMetrics.eval_step, jit, stateless_call, state3, batch.
  cbn.
  destruct (forward model tv ntv x None) as [[[y_pred ntv'] ls]|e]; cbn; [|reflexivity].
  destruct (loss_fn y y_pred) as [l|e]; cbn; [|reflexivity].
  destruct (update_state val_acc_metric mv y y_pred) as [mv'|e]; reflexivity.
Qed.

End StepEquations.

(** ** Inversion of runs *)

Section Inversion.

Variable tensor : Type.

Lemma bind_inv (A B : Type) (c : result A) (k : A -> result B) (b : B) :
  bind c k = Ok b -> exists a, c = Ok a /\ k a = Ok b.
Proof.
  destruct c as [a|e]; cbn; intros H; [|discriminate].
  exists a. split; [reflexivity|exact H].
Qed.

Lemma lift_inv (A : Type) (c : result A) (w w' : world tensor) (a : A) :
  lift c w = Ok (a, w') -> c = Ok a /\ w' = w.
Proof.
  unfold lift. destruct c as [a0|e]; intros H; [|discriminate].
  injection H as -> ->. split; reflexivity.
Qed.

Lemma mbind_inv (A B : Type) (c : M tensor A) (k : A -> M tensor B)
    (w w' : world tensor) (b : B) :
  mbind c k w = Ok (b, w') ->
  exists a w1, c w = Ok (a, w1) /\ k a w1 = Ok (b, w').
Proof.
  unfold mbind. destruct (c w) as [[a w1]|e]; intros H; [|discriminate].
  exists a, w1. split; [reflexivity|exact H].
Qed.

Lemma mret_inv (A : Type) (a a' : A) (w w' : world tensor) :
  mret a w = Ok (a', w') -> a' = a /\ w' = w.
Proof. unfold mret. intros H. injection H as <- <-. split; reflexivity. Qed.

End Inversion.

(** Taking apart a run that returned. *)
Ltac invert_ok :=
  repeat (match goal with
          | H : bind _ _ = Ok _ |- _ =>
              apply bind_inv in H; destruct H as (? & ? & H)
          | H : Ok _ = Ok _ |- _ => inversion H; subst; clear H
          | H : Raise _ = Ok _ |- _ => discriminate H
          | p : (_ * _)%type |- _ => destruct p
          end; cbn in *).

(** ** Purity of the step functions *)

Section Statelessness.

Variable tensor : Type.

Lemma stateless_lift (A : Type) (r : result A) : stateless (@lift tensor A r).
Proof. exists r. reflexivity. Qed.

Lemma stateless_mret (A : Type) (a : A) : stateless (@mret tensor A a).
Proof. exists (Ok a). reflexivity. Qed.

Lemma stateless_mbind (A B : Type) (c : M tensor A) (k : A -> M tensor B) :
  stateless c -> (forall a, stateless (k a)) -> stateless (mbind c k).
Proof.
  intros [[a|e] Hc] Hk.
  - destruct (Hk a) as [r Hr]. exists r. intros w.
    unfold mbind. rewrite Hc. cbn. apply Hr.
  - exists (Raise e). intros w. unfold mbind. rewrite Hc. reflexivity.
Qed.

(** Any number of invocations of a stateless computation, whatever the loop
    does to the objects in between, return its one value. *)
Lemma repeatedly_stateless (A : Type) (c : M tensor A)
    (between : nat -> M tensor unit) :
  stateless c ->
  forall (n : nat) (w w' : world tensor) (rs : list A),
    repeatedly n between c w = Ok (rs, w') ->
    length rs = n /\
    Forall (fun r => forall w0 : world tensor, c w0 = Ok (r, w0)) rs.
Proof.
  intros [r0 Hc]. induction n as [|n IH]; intros w w' rs H; cbn in H.
  - apply mret_inv in H as [-> _]. split; [reflexivity|constructor].
  - apply mbind_inv in H as (r & w1 & Hcall & H).
    apply mbind_inv in H as ([] & w2 & _ & H).
    apply mbind_inv in H as (rs' & w3 & Hrec & H).
    apply mret_inv in H as [-> _].
    rewrite Hc in Hcall. apply lift_inv in Hcall as [Hr _].
    destruct (IH _ _ _ Hrec) as [Hlen Hall].
    split; [cbn; congruence|].
    constructor; [|exact Hall].
    intros w0. rewrite Hc, Hr. reflexivity.
Qed.

Variable methods : Ambient.Methods tensor.
Hypothesis contracts : stateless_methods methods.

Lemma compute_loss_and_updates_stateless (args : list (pyval tensor)) :
  stateless (Ambient.compute_loss_and_updates methods args).
Proof.
  destruct contracts as (Hcall & Hloss & Htrain & _).
  unfold Ambient.compute_loss_and_updates.
  destruct args as [|a [|b [|c [|x [|y [|? ?]]]]]]; try apply stateless_lift.
  apply stateless_mbind; [apply Hcall|intros out].
  apply stateless_mbind; [apply stateless_lift|intros [y_pred ntv]].
  apply stateless_mbind; [apply Hloss|intros loss].
  apply stateless_mbind; [apply Htrain|intros mv].
  apply stateless_mret.
Qed.

Lemma train_step_stateless (state data : pyval tensor) :
  stateless (Ambient.train_step methods state data).
Proof.
  pose proof contracts as (_ & _ & _ & _ & Happly & Hgrad).
  unfold Ambient.train_step, jit, Ambient.grad_fn.
  apply stateless_mbind; [apply stateless_lift|intros [[[tv ntv] ov] mv]].
  apply stateless_mbind; [apply stateless_lift|intros [x y]].
  apply stateless_mbind;
    [apply Hgrad; apply compute_loss_and_updates_stateless|intros out].
  apply stateless_mbind; [apply stateless_lift|intros [value grads]].
  apply stateless_mbind; [apply stateless_lift|intros [loss aux]].
  apply stateless_mbind; [apply stateless_lift|intros [ntv' mv']].
  apply stateless_mbind; [apply Happly|intros applied].
  apply stateless_mbind; [apply stateless_lift|intros [tv' ov']].
  apply stateless_mret.
Qed.

Lemma eval_step_stateless (state data : pyval tensor) :
  stateless (Ambient.eval_step methods state data).
Proof.
  destruct contracts as (Hcall & Hloss & _ & Hval & _).
  unfold Ambient.eval_step, jit.
  apply stateless_mbind; [apply stateless_lift|intros [[tv ntv] mv]].
  apply stateless_mbind; [apply stateless_lift|intros [x y]].
  apply stateless_mbind; [apply Hcall|intros out].
  apply stateless_mbind; [apply stateless_lift|intros [y_pred ntv']].
  apply stateless_mbind; [apply Hloss|intros loss].
  apply stateless_mbind; [apply Hval|intros mv'].
  apply stateless_mret.
Qed.

End Statelessness.

(** The step functions of [WithMetrics] are the ones of [Ambient] when the
    methods are the pure operations of the collaborators. *)
Section PureMethods.

Variable tensor : Type.
Variable jax : Jax tensor.
Variable model : Model tensor.
Variable loss_fn : Loss tensor.
Variable optimizer : Optimizer tensor.
Variable train_acc_metric : Metric tensor.
Variable val_acc_metric : Metric tensor.

Let methods : Ambient.Methods tensor :=
  Ambient.pure_methods jax model loss_fn optimizer train_acc_metric val_acc_metric.

Lemma outcome_lift (A : Type) (r : result A) (w : world tensor) :
  Ambient.outcome (lift r w) = r.
Proof. destruct r; reflexivity. Qed.

Lemma pure_methods_stateless : stateless_methods methods.
Proof.
  repeat split; try (intros; apply stateless_lift).
  intros f Hf has_aux args.
  pose (w0 := {| model_trainable_variables := @nil tensor;
                 model_non_trainable_variables := [];
                 optimizer_variables := [];
                 train_acc_variables := [];
                 val_acc_variables := [];
                 stdout := [] |}).
  exists (value_and_grad jax (fun a => Ambient.outcome (f a w0)) has_aux args).
  intros w. cbn.
  replace (fun a => Ambient.outcome (f a w))
    with (fun a => Ambient.outcome (f a w0)); [reflexivity|].
  apply functional_extensionality. intros a.
  destruct (Hf a) as [r Hr]. rewrite !Hr, !outcome_lift. reflexivity.
Qed.

Lemma ambient_compute_loss_and_updates (args : list (pyval tensor))
    (w : world tensor) :
  Ambient.compute_loss_and_updates methods args w =
  lift (WithMetrics.compute_loss_and_updates model loss_fn train_acc_metric args) w.
Proof.
  unfold Ambient.compute_loss_and_updates, WithMetrics.compute_loss_and_updates.
  destruct args as [|a [|b [|c [|x [|y [|? ?]]]]]]; try reflexivity.
  cbn. unfold mbind, lift, mret.
  destruct (stateless_call model a b x None false) as [out|e]; cbn; [|reflexivity].
  destruct (unpack2 out) as [[y_pred ntv]|e]; cbn; [|reflexivity].
  destruct (call_loss loss_fn y y_pred) as [loss|e]; cbn; [|reflexivity].
  destruct (stateless_update_state train_acc_metric c y y_pred) as [mv|e];
    reflexivity.
Qed.

Lemma ambient_train_step (state data : pyval tensor) (w : world tensor) :
  Ambient.train_step methods state data w =
  lift (WithMetrics.train_step jax model loss_fn optimizer train_acc_metric
          state data) w.
Proof.
  unfold Ambient.train_step, WithMetrics.train_step, jit,
    WithMetrics.train_step_body, Ambient.grad_fn, WithMetrics.grad_fn.
  replace (Ambient.jax_value_and_grad methods
             (Ambient.compute_loss_and_updates methods))
    with (fun has_aux args (w1 : world tensor) =>
            lift (value_and_grad jax
                    (WithMetrics.compute_loss_and_updates model loss_fn
                       train_acc_metric) has_aux args) w1).
  2:{ apply functional_extensionality. intros has_aux.
      apply functional_extensionality. intros args.
      apply functional_extensionality. intros w1.
      cbv beta iota delta [methods Ambient.pure_methods
                             Ambient.jax_value_and_grad].
      f_equal. f_equal. apply functional_extensionality. intros a.
      rewrite <- (outcome_lift
                    (WithMetrics.compute_loss_and_updates model loss_fn
                       train_acc_metric a) w1).
      f_equal. symmetry. apply ambient_compute_loss_and_updates. }
  change (Ambient.optimizer_stateless_apply methods)
    with (fun ov grads tv => @lift tensor _ (stateless_apply optimizer ov grads tv)).
  cbv beta iota delta [mbind lift mret bind].
  destruct (unpack4 state) as [[[[tv ntv] ov] mv]|e]; [|reflexivity].
  destruct (unpack2 data) as [[x y]|e]; [|reflexivity].
  destruct (value_and_grad jax
              (WithMetrics.compute_loss_and_updates model loss_fn train_acc_metric)
              true [tv; ntv; mv; x; y]) as [out|e]; [|reflexivity].
  destruct (unpack2 out) as [[value grads]|e]; [|reflexivity].
  destruct (unpack2 value) as [[loss aux]|e]; [|reflexivity].
  destruct (unpack2 aux) as [[ntv' mv']|e]; [|reflexivity].
  destruct (stateless_apply optimizer ov grads tv) as [applied|e];
    [|reflexivity].
  destruct (unpack2 applied) as [[tv' ov']|e]; reflexivity.
Qed.

Lemma ambient_eval_step (state data : pyval tensor) (w : world tensor) :
  Ambient.eval_step methods state data w =
  lift (WithMetrics.eval_step model loss_fn val_acc_metric state data) w.
Proof.
  unfold Ambient.eval_step, WithMetrics.eval_step, jit.
  cbn. unfold mbind, lift, mret.
  destruct (unpack3 state) as [[[tv ntv] mv]|e]; cbn; [|reflexivity].
  destruct (unpack2 data) as [[x y]|e]; cbn; [|reflexivity].
  destruct (stateless_call model tv ntv x None false) as [out|e]; cbn;
    [|reflexivity].
  destruct (unpack2 out) as [[y_pred ntv']|e]; cbn; [|reflexivity].
  destruct (call_loss loss_fn y y_pred) as [loss|e]; cbn; [|reflexivity].
  destruct (stateless_update_state val_acc_metric mv y y_pred) as [mv'|e];
    reflexivity.
Qed.

End PureMethods.

(** The contracts are needed: with a model that is called on the values its
    own variables hold, [train_step] returns one loss before the model's
    variables are assigned to and another after. *)
Lemma stateful_model_breaks_purity :
  ~ stateless (Ambient.train_step Toy.methods_of_stateful_model
                 Toy.first_state Toy.first_batch).
Proof.
  intros [r Hr].
  pose proof (Hr Toy.fresh) as H1.
  pose proof (Hr Toy.after_first_program) as H2.
  vm_compute in H1. vm_compute in H2.
  destruct r as [a|e]; [|discriminate H1].
  injection H1 as <-. discriminate H2.
Qed.

(** C1.  [train_step] and [eval_step] are pure functions of their explicit
    arguments whenever the stateless methods they call are: each body
    threads its arguments through those calls and through tuple packing
    and unpacking, reads no variable of any object and assigns to none.
    For a fixed [(state, batch)] the step function then returns the same
    [(loss, state')] in every world and leaves the world as it was, so any
    number of invocations, with the loop doing anything to the objects in
    between, return the same result. *)
Theorem step_functions_pure (tensor : Type) (methods : Ambient.Methods tensor) :
  stateless_methods methods ->
  (forall state data, stateless (Ambient.train_step methods state data)) /\
  (forall state data, stateless (Ambient.eval_step methods state data)) /\
  (forall state data n between w rs w',
     repeatedly n between (Ambient.train_step methods state data) w
     = Ok (rs, w') ->
     length rs = n /\
     Forall (fun r => forall w0 : world tensor,
               Ambient.train_step methods state data w0 = Ok (r, w0)) rs) /\
  (forall state data n between w rs w',
     repeatedly n between (Ambient.eval_step methods state data) w
     = Ok (rs, w') ->
     length rs = n /\
     Forall (fun r => forall w0 : world tensor,
               Ambient.eval_step methods state data w0 = Ok (r, w0)) rs).
Proof.
  intros contracts. split; [|split; [|split]].
  - intros state data. apply train_step_stateless, contracts.
  - intros state data. apply eval_step_stateless, contracts.
  - intros state data n between w rs w' H.
    eapply repeatedly_stateless; [|exact H].
    apply train_step_stateless, contracts.
  - intros state data n between w rs w' H.
    eapply repeatedly_stateless; [|exact H].
    apply eval_step_stateless, contracts.
Qed.

(** ** The evaluation step *)

(** C3.  [eval_step] is a forward pass, the loss and the metric update, and
    nothing else: neither the differentiation operator nor the optimizer is
    among the things it is built from.  It returns the loss with the
    three-component tuple (trainable, non_trainable, metric_accum), whose
    trainable component is the one it received. *)
Theorem eval_step_forward_only (tensor : Type) (model : Model tensor)
    (loss_fn : Loss tensor) (val_acc_metric : Metric tensor) :
  (forall (tv ntv mv : list tensor) (x y : tensor),
     WithMetrics.eval_step model loss_fn val_acc_metric
       (state3 tv ntv mv) (batch x y) =
     ('(y_pred, ntv', _) <- forward model tv ntv x None ;;
      l <- loss_fn y y_pred ;;
      mv' <- update_state val_acc_metric mv y y_pred ;;
      Ok (Tup [Arr l; Tup [Vars tv; Vars ntv'; Vars mv']]))) /\
  (forall (state data r : pyval tensor),
     WithMetrics.eval_step model loss_fn val_acc_metric state data = Ok r ->
     exists trainable non_trainable metric loss non_trainable' metric',
       unpack3 state = Ok (trainable, non_trainable, metric) /\
       r = Tup [loss; Tup [trainable; non_trainable'; metric']]).
Proof.
  split.
  - intros. apply eval_step_eq.
  - intros state data r H.
    unfold WithMetrics.eval_step, jit in H.
    apply bind_inv in H as ([[trainable non_trainable] metric] & Hs & H).
    apply bind_inv in H as ([x y] & _ & H).
    apply bind_inv in H as (out & _ & H).
    apply bind_inv in H as ([y_pred non_trainable'] & _ & H).
    apply bind_inv in H as (loss & _ & H).
    apply bind_inv in H as (metric' & _ & H).
    injection H as <-.
    exists trainable, non_trainable, metric, loss, non_trainable', metric'.
    split; [exact Hs|reflexivity].
Qed.

(** ** The training step *)

(** C9.  The loss [train_step] returns and the metric accumulator in the
    state it returns come from the forward pass on the trainable values it
    was given: both are computed inside [compute_loss_and_updates], before
    the optimizer is applied, so neither reflects the updated values that
    sit next to them in the returned state. *)
Theorem loss_and_metrics_use_input_parameters (tensor : Type) (jax : Jax tensor)
    (model : Model tensor) (loss_fn : Loss tensor) (optimizer : Optimizer tensor)
    (train_acc_metric : Metric tensor)
    (tv ntv ov mv : list tensor) (x y : tensor) (r : pyval tensor) :
  WithMetrics.train_step jax model loss_fn optimizer train_acc_metric
    (state4 tv ntv ov mv) (batch x y) = Ok r ->
  exists y_pred ntv' losses l mv' g tv' ov',
    forward model tv ntv x None = Ok (y_pred, ntv', losses) /\
    loss_fn y y_pred = Ok l /\
    update_state train_acc_metric mv y y_pred = Ok mv' /\
    apply_gradients optimizer ov g tv = Ok (tv', ov') /\
    r = Tup [Arr l; state4 tv' ntv' ov' mv'].
Proof.
  rewrite train_step_eq. intros H.
  apply bind_inv in H as ([[y_pred ntv'] losses] & Hf & H).
  apply bind_inv in H as (l & Hl & H).
  apply bind_inv in H as (mv' & Hm & H).
  apply bind_inv in H as (g & _ & H).
  apply bind_inv in H as ([tv' ov'] & Ha & H).
  injection H as <-.
  exists y_pred, ntv', losses, l, mv', g, tv', ov'.
  repeat split; assumption.
Qed.

(** ** Shape signatures *)

Section Shapes.

Variable tensor : Type.
Variable jax : Jax tensor.
Variable model : Model tensor.
Variable loss_fn : Loss tensor.
Variable optimizer : Optimizer tensor.
Variable train_acc_metric : Metric tensor.
Variable val_acc_metric : Metric tensor.

Hypothesis model_ok : model_keeps_shapes jax model.
Hypothesis optimizer_ok : optimizer_keeps_shapes jax optimizer.
Hypothesis train_metric_ok : metric_keeps_shapes jax train_acc_metric.
Hypothesis val_metric_ok : metric_keeps_shapes jax val_acc_metric.

Lemma signature_state4 (tv ntv ov mv tv' ntv' ov' mv' : list tensor) :
  map (shape jax) tv' = map (shape jax) tv ->
  map (shape jax) ntv' = map (shape jax) ntv ->
  map (shape jax) ov' = map (shape jax) ov ->
  map (shape jax) mv' = map (shape jax) mv ->
  signature_of jax (state4 tv' ntv' ov' mv') = signature_of jax (state4 tv ntv ov mv).
Proof. intros H1 H2 H3 H4. cbn. rewrite H1, H2, H3, H4. reflexivity. Qed.

Lemma signature_state3 (tv ntv mv tv' ntv' mv' : list tensor) :
  map (shape jax) tv' = map (shape jax) tv ->
  map (shape jax) ntv' = map (shape jax) ntv ->
  map (shape jax) mv' = map (shape jax) mv ->
  signature_of jax (state3 tv' ntv' mv') = signature_of jax (state3 tv ntv mv).
Proof. intros H1 H2 H3. cbn. rewrite H1, H2, H3. reflexivity. Qed.

(** One training step. *)
Lemma train_step_shapes (tv ntv ov mv : list tensor) (x y : tensor)
    (r : pyval tensor) :
  WithMetrics.train_step jax model loss_fn optimizer train_acc_metric
    (state4 tv ntv ov mv) (batch x y) = Ok r ->
  exists l tv' ntv' ov' mv',
    r = Tup [Arr l; state4 tv' ntv' ov' mv'] /\
    map (shape jax) tv' = map (shape jax) tv /\
    map (shape jax) ntv' = map (shape jax) ntv /\
    map (shape jax) ov' = map (shape jax) ov /\
    map (shape jax) mv' = map (shape jax) mv.
Proof.
  rewrite train_step_eq. intros H.
  apply bind_inv in H as ([[y_pred ntv'] losses] & Hf & H).
  apply bind_inv in H as (l & _ & H).
  apply bind_inv in H as (mv' & Hm & H).
  apply bind_inv in H as (g & _ & H).
  apply bind_inv in H as ([tv' ov'] & Ha & H).
  injection H as <-.
  destruct (optimizer_ok _ _ _ Ha) as [Htv Hov].
  exists l, tv', ntv', ov', mv'.
  repeat split; eauto.
Qed.

(** One evaluation step. *)
Lemma eval_step_shapes (tv ntv mv : list tensor) (x y : tensor) (r : pyval tensor) :
  WithMetrics.eval_step model loss_fn val_acc_metric (state3 tv ntv mv) (batch x y)
    = Ok r ->
  exists l ntv' mv',
    r = Tup [Arr l; state3 tv ntv' mv'] /\
    map (shape jax) ntv' = map (shape jax) ntv /\
    map (shape jax) mv' = map (shape jax) mv.
Proof.
  rewrite eval_step_eq. intros H.
  apply bind_inv in H as ([[y_pred ntv'] losses] & Hf & H).
  apply bind_inv in H as (l & _ & H).
  apply bind_inv in H as (mv' & Hm & H).
  injection H as <-.
  exists l, ntv', mv'.
  repeat split; eauto.
Qed.

(** Every iteration of the training loop. *)
Lemma training_loop_shapes (train_dataset : list (tensor * tensor)) :
  forall (step : nat) (tv ntv ov mv : list tensor) (w w' : world tensor)
         (final : pyval tensor),
    WithMetrics.training_loop jax model loss_fn optimizer train_acc_metric
      step train_dataset (state4 tv ntv ov mv) w = Ok (final, w') ->
    exists tv' ntv' ov' mv',
      final = state4 tv' ntv' ov' mv' /\
      signature_of jax final = signature_of jax (state4 tv ntv ov mv).
Proof.
  induction train_dataset as [|[x y] rest IH]; intros step tv ntv ov mv w w' final H.
  - apply mret_inv in H as [-> _]. exists tv, ntv, ov, mv. split; reflexivity.
  - cbn [WithMetrics.training_loop] in H.
    apply mbind_inv in H as (out & w1 & Hstep & H).
    apply lift_inv in Hstep as [Hstep ->].
    apply train_step_shapes in Hstep
      as (l & tv' & ntv' & ov' & mv' & -> & Htv & Hntv & Hov & Hmv).
    apply mbind_inv in H as ([loss state'] & w2 & Hun & H).
    apply lift_inv in Hun as [Hun ->].
    cbn in Hun. injection Hun as <- <-.
    apply mbind_inv in H as ([] & w3 & _ & H).
    apply IH in H as (tv2 & ntv2 & ov2 & mv2 & -> & Hsig).
    exists tv2, ntv2, ov2, mv2. split; [reflexivity|].
    rewrite Hsig. apply signature_state4; assumption.
Qed.

(** Every iteration of the evaluation loop. *)
Lemma eval_loop_shapes (val_dataset : list (tensor * tensor)) :
  forall (step : nat) (tv ntv mv : list tensor) (w w' : world tensor)
         (final : pyval tensor),
    WithMetrics.eval_loop jax model loss_fn val_acc_metric
      step val_dataset (state3 tv ntv mv) w = Ok (final, w') ->
    exists ntv' mv',
      final = state3 tv ntv' mv' /\
      signature_of jax final = signature_of jax (state3 tv ntv mv).
Proof.
  induction val_dataset as [|[x y] rest IH]; intros step tv ntv mv w w' final H.
  - apply mret_inv in H as [-> _]. exists ntv, mv. split; reflexivity.
  - cbn [WithMetrics.eval_loop] in H.
    apply mbind_inv in H as (out & w1 & Hstep & H).
    apply lift_inv in Hstep as [Hstep ->].
    apply eval_step_shapes in Hstep as (l & ntv' & mv' & -> & Hntv & Hmv).
    apply mbind_inv in H as ([loss state'] & w2 & Hun & H).
    apply lift_inv in Hun as [Hun ->].
    cbn in Hun. injection Hun as <- <-.
    apply mbind_inv in H as ([] & w3 & _ & H).
    apply IH in H as (ntv2 & mv2 & -> & Hsig).
    exists ntv2, mv2. split; [reflexivity|].
    rewrite Hsig. apply signature_state3; [reflexivity|assumption..].
Qed.

End Shapes.

(** C5.  With collaborators that keep the shapes of the collections they
    update, the state a step function returns has the shape signature of
    the state it was given, component by component (trainable,
    non-trainable, optimizer accumulator, metric accumulator), and so has
    the state after any number of iterations of either loop. *)
Theorem state_signature_preserved (tensor : Type) (jax : Jax tensor)
    (model : Model tensor) (loss_fn : Loss tensor) (optimizer : Optimizer tensor)
    (train_acc_metric val_acc_metric : Metric tensor) :
  model_keeps_shapes jax model ->
  optimizer_keeps_shapes jax optimizer ->
  metric_keeps_shapes jax train_acc_metric ->
  metric_keeps_shapes jax val_acc_metric ->
  forall (tv ntv ov mv : list tensor) (x y : tensor),
    (forall r,
       WithMetrics.train_step jax model loss_fn optimizer train_acc_metric
         (state4 tv ntv ov mv) (batch x y) = Ok r ->
       exists loss tv' ntv' ov' mv',
         r = Tup [loss; state4 tv' ntv' ov' mv'] /\
         map (shape jax) tv' = map (shape jax) tv /\
         map (shape jax) ntv' = map (shape jax) ntv /\
         map (shape jax) ov' = map (shape jax) ov /\
         map (shape jax) mv' = map (shape jax) mv /\
         signature_of jax (state4 tv' ntv' ov' mv') =
         signature_of jax (state4 tv ntv ov mv)) /\
    (forall r,
       WithMetrics.eval_step model loss_fn val_acc_metric
         (state3 tv ntv mv) (batch x y) = Ok r ->
       exists loss st',
         r = Tup [loss; st'] /\
         signature_of jax st' = signature_of jax (state3 tv ntv mv)) /\
    (forall train_dataset step w final w',
       WithMetrics.training_loop jax model loss_fn optimizer train_acc_metric
         step train_dataset (state4 tv ntv ov mv) w = Ok (final, w') ->
       signature_of jax final = signature_of jax (state4 tv ntv ov mv)) /\
    (forall val_dataset step w final w',
       WithMetrics.eval_loop jax model loss_fn val_acc_metric
         step val_dataset (state3 tv ntv mv) w = Ok (final, w') ->
       signature_of jax final = signature_of jax (state3 tv ntv mv)).
Proof.
  intros Hmodel Hopt Htrain Hval tv ntv ov mv x y.
  repeat split.
  - intros r H.
    apply (@train_step_shapes _ _ _ _ _ _ Hmodel Hopt Htrain) in H
      as (l & tv' & ntv' & ov' & mv' & -> & Htv & Hntv & Hov & Hmv).
    exists (Arr l), tv', ntv', ov', mv'.
    repeat split; try assumption.
    apply signature_state4; assumption.
  - intros r H.
    apply (@eval_step_shapes _ _ _ _ _ Hmodel Hval) in H as (l & ntv' & mv' & -> & Hntv & Hmv).
    exists (Arr l), (state3 tv ntv' mv').
    split; [reflexivity|].
    apply signature_state3; [reflexivity|assumption..].
  - intros ds step w final w' H.
    apply (@training_loop_shapes _ _ _ _ _ _ Hmodel Hopt Htrain) in H as (? & ? & ? & ? & _ & Hsig).
    exact Hsig.
  - intros ds step w final w' H.
    apply (@eval_loop_shapes _ _ _ _ _ Hmodel Hval) in H as (? & ? & _ & Hsig).
    exact Hsig.
Qed.

(** ** The gradient evaluator and the three [compute_loss_and_updates] *)

Section Evaluator.

Variable tensor : Type.
Variable jax : Jax tensor.
Variable model : Model tensor.
Variable loss_fn : Loss tensor.
Variable optimizer : Optimizer tensor.
Variable train_acc_metric : Metric tensor.

(** Cell 9 returns the pair (loss, non_trainable), the loss first. *)
Lemma first_variant_returns_pair (args : list (pyval tensor)) (out : pyval tensor) :
  FirstExample.compute_loss_and_updates model loss_fn args = Ok out ->
  exists l ntv, out = Tup [Arr l; Vars ntv].
Proof.
  unfold FirstExample.compute_loss_and_updates.
  destruct args as [|a [|b [|x [|y [|? ?]]]]]; try discriminate.
  unfold stateless_call, call_loss. intros H.
  invert_ok. eexists _, _. reflexivity.
Qed.

(** Cell 21 returns the pair (loss, (non_trainable, metric)), the loss
    first and the two collections packed as the auxiliary output. *)
Lemma second_variant_returns_pair (args : list (pyval tensor)) (out : pyval tensor) :
  WithMetrics.compute_loss_and_updates model loss_fn train_acc_metric args = Ok out ->
  exists l ntv mv, out = Tup [Arr l; Tup [Vars ntv; Vars mv]].
Proof.
  unfold WithMetrics.compute_loss_and_updates.
  destruct args as [|a [|b [|c [|x [|y [|? ?]]]]]]; try discriminate.
  unfold stateless_call, call_loss, stateless_update_state. intros H.
  invert_ok. eexists _, _, _. reflexivity.
Qed.

(** The evaluator hands the auxiliary output of cell 21 back as it is, next
    to the gradient of the first element with respect to the first
    argument. *)
Lemma grad_fn_passes_aux (tv ntv mv : list tensor) (x y : tensor) (r : pyval tensor) :
  WithMetrics.grad_fn jax model loss_fn train_acc_metric
    [Vars tv; Vars ntv; Vars mv; Arr x; Arr y] = Ok r ->
  exists l aux g,
    WithMetrics.compute_loss_and_updates model loss_fn train_acc_metric
      [Vars tv; Vars ntv; Vars mv; Arr x; Arr y] = Ok (Tup [Arr l; aux]) /\
    grad jax
      (scalar_output
         (WithMetrics.compute_loss_and_updates model loss_fn train_acc_metric)
         true [Vars ntv; Vars mv; Arr x; Arr y]) tv = Ok g /\
    r = Tup [Tup [Arr l; aux]; Vars g].
Proof.
  unfold WithMetrics.grad_fn, value_and_grad. cbn [as_vars bind]. intros H.
  apply bind_inv in H as (out & Hout & H).
  destruct (second_variant_returns_pair _ Hout) as (l & ntv' & mv' & ->).
  cbn in H.
  apply bind_inv in H as (g & Hg & H).
  injection H as <-.
  exists l, (Tup [Vars ntv'; Vars mv']), g.
  repeat split; assumption.
Qed.

(** Cell 31 returns three values side by side: the loss first, then the two
    collections, not packed. *)
Lemma third_variant_returns_triple (args : list (pyval tensor)) (out : pyval tensor) :
  TrackedLosses.compute_loss_and_updates jax model loss_fn train_acc_metric args
    = Ok out ->
  exists l ntv mv, out = Tup [Arr l; Vars ntv; Vars mv].
Proof.
  unfold TrackedLosses.compute_loss_and_updates.
  destruct args as [|a [|b [|c [|x [|y [|? ?]]]]]]; try discriminate.
  unfold stateless_call, call_loss, stateless_update_state, truthy. intros H.
  invert_ok.
  match goal with
  | H : (if ?b then _ else _) = Ok _ |- _ => destruct b; invert_ok
  end; eexists _, _, _; reflexivity.
Qed.

(** A function that never returns a pair is refused by the evaluator. *)
Lemma value_and_grad_needs_pair (f : list (pyval tensor) -> result (pyval tensor)) :
  (forall args out, f args = Ok out -> aux_pair out = Raise TypeError) ->
  forall args, exists e, value_and_grad jax f true args = Raise e.
Proof.
  intros Hf [|primal rest]; cbn; [eexists; reflexivity|].
  destruct (as_vars primal) as [p|e]; cbn; [|eexists; reflexivity].
  destruct (f (primal :: rest)) as [out|e] eqn:E; cbn; [|eexists; reflexivity].
  rewrite (Hf _ _ E). cbn. eexists; reflexivity.
Qed.

(** [train_step] cannot return when its [grad_fn] never does. *)
Lemma train_step_body_needs_grad
    (grad_fn : list (pyval tensor) -> result (pyval tensor)) :
  (forall args, exists e, grad_fn args = Raise e) ->
  forall state data,
    exists e, WithMetrics.train_step_body optimizer grad_fn state data = Raise e.
Proof.
  intros Hg state data. unfold WithMetrics.train_step_body.
  destruct (unpack4 state) as [[[[a b] c] d]|e]; cbn; [|eexists; reflexivity].
  destruct (unpack2 data) as [[x y]|e]; cbn; [|eexists; reflexivity].
  destruct (Hg [a; b; d; x; y]) as [e He]. rewrite He. cbn.
  eexists; reflexivity.
Qed.

Lemma tracked_losses_grad_fn_raises (args : list (pyval tensor)) :
  exists e,
    TrackedLosses.grad_fn jax model loss_fn train_acc_metric args = Raise e.
Proof.
  apply value_and_grad_needs_pair.
  intros args0 out H.
  apply third_variant_returns_triple in H as (l & ntv & mv & ->).
  reflexivity.
Qed.

End Evaluator.

(** C4.  In each of the three [compute_loss_and_updates] the loss is the
    first element of what is returned.  Cells 9 and 21 return a pair, which
    the evaluator hands back with the gradients; cell 31, when it returns,
    returns the two collections as second and third elements of a flat
    triple, which is not the (loss, auxiliary) pair the evaluator takes:
    [jax.value_and_grad] with [has_aux] never returns on it, for any
    argument list, where on the same arguments it hands the auxiliary
    output of cell 21 back unmodified.  On a model that tracked a loss
    cell 31 does not return at all: it hands the Python list of losses to
    [jax.numpy.sum]. *)
Theorem tracked_losses_variant_refused :
  (forall (tensor : Type) (jax : Jax tensor) (model : Model tensor)
          (loss_fn : Loss tensor) (train_acc_metric : Metric tensor)
          (args : list (pyval tensor)),
     (forall out,
        TrackedLosses.compute_loss_and_updates jax model loss_fn
          train_acc_metric args = Ok out ->
        exists l ntv mv, out = Tup [Arr l; Vars ntv; Vars mv]) /\
     (exists e,
        TrackedLosses.grad_fn jax model loss_fn train_acc_metric args = Raise e)) /\
  TrackedLosses.compute_loss_and_updates Toy.jax (Toy.model false) Toy.loss_fn
    Toy.accuracy
    [Vars [[2; 0]%Z]; Vars [[0%Z]]; Vars [[0%Z]; [0%Z]]; Arr [1; 2]%Z; Arr [2; 5]%Z]
  = Ok (Tup [Arr [1%Z]; Vars [[1%Z]]; Vars [[1%Z]; [2%Z]]]) /\
  TrackedLosses.grad_fn Toy.jax (Toy.model false) Toy.loss_fn Toy.accuracy
    [Vars [[2; 0]%Z]; Vars [[0%Z]]; Vars [[0%Z]; [0%Z]]; Arr [1; 2]%Z; Arr [2; 5]%Z]
  = Raise TypeError /\
  TrackedLosses.compute_loss_and_updates Toy.jax (Toy.model true) Toy.loss_fn
    Toy.accuracy
    [Vars [[2; 0]%Z]; Vars [[0%Z]]; Vars [[0%Z]; [0%Z]]; Arr [1; 2]%Z; Arr [2; 5]%Z]
  = Raise TypeError /\
  WithMetrics.grad_fn Toy.jax (Toy.model false) Toy.loss_fn Toy.accuracy
    [Vars [[2; 0]%Z]; Vars [[0%Z]]; Vars [[0%Z]; [0%Z]]; Arr [1; 2]%Z; Arr [2; 5]%Z]
  = Ok (Tup [Tup [Arr [1%Z]; Tup [Vars [[1%Z]]; Vars [[1%Z]; [2%Z]]]];
             Vars [[1; 0]%Z]]).
Proof.
  split; [|repeat split; vm_compute; reflexivity].
  intros tensor jax model loss_fn train_acc_metric args. split.
  - intros out H. exact (third_variant_returns_triple _ _ _ _ _ H).
  - apply tracked_losses_grad_fn_raises.
Qed.

(** C2.  [train_step] with the [compute_loss_and_updates] that adds the
    tracked losses never returns: [grad_fn] raises, for every state and
    batch (on the flat triple, or before that at [jax.numpy.sum] when a
    loss was tracked).  [train_step] as the notebook binds it, over
    cell 21, returns the loss of the forward pass alone, also for a model
    that tracks a loss. *)
Theorem train_step_with_tracked_losses_raises :
  (forall (tensor : Type) (jax : Jax tensor) (model : Model tensor)
          (loss_fn : Loss tensor) (optimizer : Optimizer tensor)
          (train_acc_metric : Metric tensor) (state data : pyval tensor),
     exists e,
       TrackedLosses.train_step jax model loss_fn optimizer train_acc_metric
         state data = Raise e) /\
  forward (Toy.model true) [[2; 0]%Z] [[0%Z]] [1; 2]%Z None
  = Ok ([2; 4]%Z, [[1%Z]], [[6%Z]]) /\
  TrackedLosses.train_step Toy.jax (Toy.model true) Toy.loss_fn Toy.optimizer
    Toy.accuracy Toy.first_state Toy.first_batch
  = Raise TypeError /\
  WithMetrics.train_step Toy.jax (Toy.model true) Toy.loss_fn Toy.optimizer
    Toy.accuracy Toy.first_state Toy.first_batch
  = Ok (Tup [Arr [1%Z];
             state4 [[1; 0]%Z] [[1%Z]] [[1; 0]%Z] [[1%Z]; [2%Z]]]).
Proof.
  split; [|repeat split; vm_compute; reflexivity].
  intros tensor jax model loss_fn optimizer train_acc_metric state data.
  unfold TrackedLosses.train_step, jit.
  apply train_step_body_needs_grad.
  apply tracked_losses_grad_fn_raises.
Qed.

(** ** Between the two loops *)

(** C6.  The state handed to the evaluation loop carries the metric
    accumulator the training loop left: the validation metric's variables
    are read and then overwritten by the unpacking of [state], and nothing
    is reset.  On the small instance the first [eval_step] starts from 1
    correct out of 2, not from the validation metric's zeros, and the
    accuracy printed after one correctly predicted validation sample is 66,
    not 100. *)
Theorem eval_state_keeps_training_accumulator :
  (forall (tensor : Type) (tv ntv ov mv : list tensor) (w : world tensor),
     WithMetrics.eval_state (state4 tv ntv ov mv) w = Ok (state3 tv ntv mv, w)) /\
  (exists w1,
     (state <- WithMetrics.initial_state Toy.optimizer ;;
      trained <- WithMetrics.training_loop Toy.jax (Toy.model false) Toy.loss_fn
                   Toy.optimizer Toy.accuracy 0 Toy.train_dataset state ;;
      WithMetrics.eval_state trained)%drv Toy.fresh
     = Ok (state3 [[1; 0]%Z] [[1%Z]] [[1%Z]; [2%Z]], w1) /\
     val_acc_variables w1 = initial_variables Toy.accuracy /\
     initial_variables Toy.accuracy = [[0%Z]; [0%Z]]) /\
  (exists evaluated w2,
     WithMetrics.program Toy.jax (Toy.model false) Toy.loss_fn Toy.optimizer
       Toy.accuracy Toy.accuracy Toy.train_dataset Toy.val_dataset Toy.fresh
     = Ok (evaluated, w2) /\
     stdout w2 = [TrainingLoss 0 [1%Z]; TrainingAccuracy [50%Z];
                  SeenSoFar Toy.tensor 32; ValidationLoss 0 [0%Z];
                  ValidationAccuracy [66%Z]; SeenSoFar Toy.tensor 32]) /\
  WithMetrics.eval_step (Toy.model false) Toy.loss_fn Toy.accuracy
    (state3 [[1; 0]%Z] [[1%Z]] (initial_variables Toy.accuracy))
    (batch [1%Z] [1%Z])
  = Ok (Tup [Arr [0%Z]; state3 [[1; 0]%Z] [[2%Z]] [[1%Z]; [1%Z]]]).
Proof.
  split; [reflexivity|].
  split; [eexists; repeat split; vm_compute; reflexivity|].
  split; [eexists _, _; split; vm_compute; reflexivity|].
  vm_compute. reflexivity.
Qed.

(** ** Additivity of the metric accumulator *)

Section Additivity.

Variable target : Type.
Variable prediction : Type.
Variable hit : target -> prediction -> bool.

Lemma hits_app (t1 t2 : list target) :
  forall (p1 p2 : list prediction),
    length t1 = length p1 ->
    MetricSpec.hits hit (t1 ++ t2) (p1 ++ p2) =
    (MetricSpec.hits hit t1 p1 + MetricSpec.hits hit t2 p2)%Z.
Proof.
  induction t1 as [|t t1 IH]; intros [|p p1] p2 Hlen; try discriminate Hlen.
  - reflexivity.
  - cbn. rewrite (IH p1 p2); [lia|]. cbn in Hlen. congruence.
Qed.

Lemma update_app (a : MetricSpec.accum) (t1 t2 : list target)
    (p1 p2 : list prediction) :
  length t1 = length p1 ->
  MetricSpec.update hit (MetricSpec.update hit a t1 p1) t2 p2 =
  MetricSpec.update hit a (t1 ++ t2) (p1 ++ p2).
Proof.
  intros Hlen. unfold MetricSpec.update. cbn.
  rewrite (hits_app t1 t2 p1 p2 Hlen), length_app, Nat2Z.inj_add.
  f_equal; lia.
Qed.

Lemma update_comm (a : MetricSpec.accum) (t1 t2 : list target)
    (p1 p2 : list prediction) :
  MetricSpec.update hit (MetricSpec.update hit a t1 p1) t2 p2 =
  MetricSpec.update hit (MetricSpec.update hit a t2 p2) t1 p1.
Proof. unfold MetricSpec.update. cbn. f_equal; lia. Qed.

End Additivity.

(** C7.  Metric accumulation is additive: updating from the zero state with
    [b1] and then [b2] accumulates what a single update with the
    concatenation of the two batches accumulates, so the reduced values
    agree; the order of the two batches does not matter, and the same holds
    from any accumulator.  A batch is compatible when it has as many
    predictions as targets. *)
Theorem metric_accumulation_additive (target prediction : Type)
    (hit : target -> prediction -> bool)
    (t1 t2 : list target) (p1 p2 : list prediction) :
  length t1 = length p1 ->
  MetricSpec.reduce
    (MetricSpec.update hit (MetricSpec.update hit MetricSpec.reset t1 p1) t2 p2) =
  MetricSpec.reduce (MetricSpec.update hit MetricSpec.reset (t1 ++ t2) (p1 ++ p2)) /\
  MetricSpec.update hit (MetricSpec.update hit MetricSpec.reset t1 p1) t2 p2 =
  MetricSpec.update hit (MetricSpec.update hit MetricSpec.reset t2 p2) t1 p1 /\
  (forall a,
     MetricSpec.update hit (MetricSpec.update hit a t1 p1) t2 p2 =
     MetricSpec.update hit a (t1 ++ t2) (p1 ++ p2)).
Proof.
  intros Hlen. repeat split.
  - rewrite (update_app hit _ t1 t2 p1 p2 Hlen). reflexivity.
  - apply update_comm.
  - intros a. apply update_app. exact Hlen.
Qed.

(** ** What the loops write to *)

Section Frames.

Variable tensor : Type.
Variable X : Type.
Variable f : world tensor -> X.

Lemma preserves_mret (A : Type) (a : A) : preserves f (mret a).
Proof. intros w a' w' H. apply mret_inv in H as [_ ->]. reflexivity. Qed.

Lemma preserves_lift (A : Type) (r : result A) : preserves f (lift r).
Proof. intros w a w' H. apply lift_inv in H as [_ ->]. reflexivity. Qed.

Lemma preserves_gets (A : Type) (g : world tensor -> A) : preserves f (gets g).
Proof. intros w a w' H. unfold gets in H. injection H as _ <-. reflexivity. Qed.

Lemma preserves_modify (g : world tensor -> world tensor) :
  (forall w, f (g w) = f w) -> preserves f (modify g).
Proof.
  intros Hg w a w' H. unfold modify in H.
  injection H as _ <-. apply Hg.
Qed.

Lemma preserves_mbind (A B : Type) (c : M tensor A) (k : A -> M tensor B) :
  preserves f c -> (forall a, preserves f (k a)) -> preserves f (mbind c k).
Proof.
  intros Hc Hk w b w' H.
  apply mbind_inv in H as (a & w1 & H1 & H2).
  rewrite (Hk _ _ _ _ H2). exact (Hc _ _ _ H1).
Qed.

End Frames.

(** Splitting a loop body along its binds; what is left are the writes. *)
Ltac frame :=
  repeat first
    [ apply preserves_mret
    | apply preserves_lift
    | apply preserves_gets
    | apply preserves_mbind; [|intros]
    | match goal with
      | |- preserves _ (match ?x with pair _ _ => _ end) => destruct x
      | |- preserves _ (if ?b then _ else _) => destruct b
      end
    | apply preserves_modify; intros; reflexivity ].

Section LoopFrames.

Variable tensor : Type.
Variable jax : Jax tensor.
Variable model : Model tensor.
Variable loss_fn : Loss tensor.
Variable optimizer : Optimizer tensor.
Variable train_acc_metric : Metric tensor.
Variable val_acc_metric : Metric tensor.

(** The first training loop writes to nothing but the output. *)
Lemma first_training_loop_frame (X : Type) (f : world tensor -> X) :
  (forall l w, f (add_line l w) = f w) ->
  forall train_dataset step state,
    preserves f
      (FirstExample.training_loop jax model loss_fn optimizer step
         train_dataset state).
Proof.
  intros Hprint train_dataset.
  induction train_dataset as [|[x y] rest IH]; intros step state;
    cbn [FirstExample.training_loop]; unfold print; frame; try apply IH;
    apply preserves_modify; intros; apply Hprint.
Qed.

(** The training loop with metrics writes to the output and to the
    variables of the training metric. *)
Lemma training_loop_frame (X : Type) (f : world tensor -> X) :
  (forall l w, f (add_line l w) = f w) ->
  (forall vs w, f (set_train_acc_variables vs w) = f w) ->
  forall train_dataset step state,
    preserves f
      (WithMetrics.training_loop jax model loss_fn optimizer train_acc_metric
         step train_dataset state).
Proof.
  intros Hprint Hset train_dataset.
  induction train_dataset as [|[x y] rest IH]; intros step state;
    cbn [WithMetrics.training_loop]; unfold WithMetrics.log_training, print;
    frame; try apply IH;
    apply preserves_modify; intros; first [apply Hprint | apply Hset].
Qed.

(** The evaluation loop writes to the output and to the variables of the
    validation metric. *)
Lemma eval_loop_frame (X : Type) (f : world tensor -> X) :
  (forall l w, f (add_line l w) = f w) ->
  (forall vs w, f (set_val_acc_variables vs w) = f w) ->
  forall val_dataset step state,
    preserves f
      (WithMetrics.eval_loop jax model loss_fn val_acc_metric
         step val_dataset state).
Proof.
  intros Hprint Hset val_dataset.
  induction val_dataset as [|[x y] rest IH]; intros step state;
    cbn [WithMetrics.eval_loop]; unfold WithMetrics.log_validation, print;
    frame; try apply IH;
    apply preserves_modify; intros; first [apply Hprint | apply Hset].
Qed.

(** The reattachment writes to the variables of the model. *)
Lemma reattach_frame (X : Type) (f : world tensor -> X) :
  (forall vs w, f (set_model_trainable_variables vs w) = f w) ->
  (forall vs w, f (set_model_non_trainable_variables vs w) = f w) ->
  forall state, preserves f (FirstExample.reattach jax state).
Proof.
  intros Htv Hntv state. unfold FirstExample.reattach. frame;
    apply preserves_modify; intros; first [apply Htv | apply Hntv].
Qed.

(** [train_step] of cell 15 returns a three-component state. *)
Lemma first_train_step_state (tv ntv ov : list tensor) (x y : tensor)
    (r : pyval tensor) :
  FirstExample.train_step jax model loss_fn optimizer
    (Tup [Vars tv; Vars ntv; Vars ov]) (batch x y) = Ok r ->
  exists l tv' ntv' ov', r = Tup [Arr l; Tup [Vars tv'; Vars ntv'; Vars ov']].
Proof.
  unfold FirstExample.train_step, jit, FirstExample.train_step_eager,
    FirstExample.grad_fn, value_and_grad, FirstExample.compute_loss_and_updates,
    stateless_call, call_loss, stateless_apply, batch.
  cbn. intros H. invert_ok. eexists _, _, _, _. reflexivity.
Qed.

Lemma first_training_loop_state (train_dataset : list (tensor * tensor)) :
  forall step (tv ntv ov : list tensor) (w w' : world tensor) final,
    FirstExample.training_loop jax model loss_fn optimizer step train_dataset
      (Tup [Vars tv; Vars ntv; Vars ov]) w = Ok (final, w') ->
    exists tv' ntv' ov', final = Tup [Vars tv'; Vars ntv'; Vars ov'].
Proof.
  induction train_dataset as [|[x y] rest IH]; intros step tv ntv ov w w' final H.
  - apply mret_inv in H as [-> _]. exists tv, ntv, ov. reflexivity.
  - cbn [FirstExample.training_loop] in H.
    apply mbind_inv in H as (out & w1 & Hstep & H).
    apply lift_inv in Hstep as [Hstep ->].
    apply first_train_step_state in Hstep as (l & tv' & ntv' & ov' & ->).
    apply mbind_inv in H as ([loss state'] & w2 & Hun & H).
    apply lift_inv in Hun as [Hun ->].
    cbn in Hun. injection Hun as <- <-.
    apply mbind_inv in H as ([] & w3 & _ & H).
    exact (IH _ _ _ _ _ _ _ H).
Qed.

End LoopFrames.

Section Reattachment.

Variable tensor : Type.
Variable jax : Jax tensor.
Variable model : Model tensor.
Variable loss_fn : Loss tensor.
Variable optimizer : Optimizer tensor.
Variable train_acc_metric : Metric tensor.
Variable val_acc_metric : Metric tensor.

Lemma gets_inv (A : Type) (g : world tensor -> A) (w w' : world tensor) (a : A) :
  gets g w = Ok (a, w') -> a = g w /\ w' = w.
Proof. unfold gets. intros H. injection H as <- <-. split; reflexivity. Qed.

Lemma modify_inv (g : world tensor -> world tensor) (w w' : world tensor) (u : unit) :
  modify g w = Ok (u, w') -> w' = g w.
Proof. unfold modify. intros H. injection H as _ <-. reflexivity. Qed.

(** Cell 19 assigns the trainable and the non-trainable values of the state
    to the variables of the model. *)
Lemma reattach_writes (tv ntv ov : list tensor) (w w' : world tensor) (u : unit) :
  FirstExample.reattach jax (Tup [Vars tv; Vars ntv; Vars ov]) w = Ok (u, w') ->
  assign_values jax (model_trainable_variables w) tv
    = Ok (model_trainable_variables w') /\
  assign_values jax (model_non_trainable_variables w) ntv
    = Ok (model_non_trainable_variables w').
Proof.
  unfold FirstExample.reattach. intros H.
  apply mbind_inv in H as ([[a b] c] & w0 & H0 & H).
  apply lift_inv in H0 as [H0 ->]. cbn in H0. injection H0 as <- <- <-.
  apply mbind_inv in H as (values & w0 & H0 & H).
  apply lift_inv in H0 as [H0 ->]. rewrite values_of_Vars in H0. injection H0 as <-.
  apply mbind_inv in H as (variables & w0 & H0 & H).
  apply gets_inv in H0 as [-> ->].
  apply mbind_inv in H as (assigned & w0 & H0 & H).
  apply lift_inv in H0 as [Htv ->].
  apply mbind_inv in H as ([] & w0 & H0 & H).
  apply modify_inv in H0 as ->.
  apply mbind_inv in H as (values & w0 & H0 & H).
  apply lift_inv in H0 as [H0 ->]. rewrite values_of_Vars in H0. injection H0 as <-.
  apply mbind_inv in H as (variables & w0 & H0 & H).
  apply gets_inv in H0 as [-> ->].
  apply mbind_inv in H as (assigned' & w0 & H0 & H).
  apply lift_inv in H0 as [Hntv ->].
  apply modify_inv in H as ->.
  cbn in *. split; assumption.
Qed.

Lemma eval_state_frame (X : Type) (f : world tensor -> X) (state : pyval tensor) :
  preserves f (WithMetrics.eval_state state).
Proof.
  unfold WithMetrics.eval_state. frame.
Qed.

End Reattachment.

(** C10.  Nothing in the program assigns to the optimizer's variables after
    [optimizer.build]: the training loops write to the output (and to the
    training metric), the evaluation loop to the output and the validation
    metric, and the reattachment of cell 19 to the trainable and the
    non-trainable variables of the model, which receive the values of the
    final state.  After either program the optimizer object holds the
    values [build] gave it; after cell 25, which has no reattachment, the
    model holds the values it started with.  Each program is taken on its
    own: any run of cells 17 and 19 that returns, any run of cell 25 that
    returns. *)
Theorem optimizer_object_keeps_build_values (tensor : Type) :
  (forall (jax : Jax tensor) (model : Model tensor) (loss_fn : Loss tensor)
          (optimizer : Optimizer tensor)
          (train_dataset : list (tensor * tensor))
          (w w1 : world tensor) (s1 : pyval tensor),
     FirstExample.program jax model loss_fn optimizer train_dataset w
     = Ok (s1, w1) ->
     optimizer_variables w1
     = build_variables optimizer (model_trainable_variables w) /\
     train_acc_variables w1 = train_acc_variables w /\
     val_acc_variables w1 = val_acc_variables w /\
     exists tv ntv ov,
       s1 = Tup [Vars tv; Vars ntv; Vars ov] /\
       assign_values jax (model_trainable_variables w) tv
         = Ok (model_trainable_variables w1) /\
       assign_values jax (model_non_trainable_variables w) ntv
         = Ok (model_non_trainable_variables w1)) /\
  (forall (jax : Jax tensor) (model : Model tensor) (loss_fn : Loss tensor)
          (optimizer : Optimizer tensor)
          (train_acc_metric val_acc_metric : Metric tensor)
          (train_dataset val_dataset : list (tensor * tensor))
          (w w2 : world tensor) (s2 : pyval tensor * pyval tensor),
     WithMetrics.program jax model loss_fn optimizer train_acc_metric
       val_acc_metric train_dataset val_dataset w = Ok (s2, w2) ->
     optimizer_variables w2
     = build_variables optimizer (model_trainable_variables w) /\
     model_trainable_variables w2 = model_trainable_variables w /\
     model_non_trainable_variables w2 = model_non_trainable_variables w).
Proof.
  split;
    [intros jax model loss_fn optimizer train_dataset w w1 s1 H1
    |intros jax model loss_fn optimizer train_acc_metric val_acc_metric
       train_dataset val_dataset w w2 s2 H2].
  - unfold FirstExample.program in H1.
    apply mbind_inv in H1 as (st0 & w0 & Hinit & H1).
    apply mbind_inv in H1 as (final & wa & Hloop & H1).
    apply mbind_inv in H1 as ([] & wb & Hre & H1).
    apply mret_inv in H1 as [-> ->].
    cbv [FirstExample.initial_state mbind modify gets mret] in Hinit.
    injection Hinit as <- <-.
    pose proof Hloop as Hstate.
    apply first_training_loop_state in Hstate as (tv & ntv & ov & ->).
    pose proof (@first_training_loop_frame _ jax model loss_fn optimizer _
                  (fun w => (model_trainable_variables w,
                             model_non_trainable_variables w,
                             optimizer_variables w, train_acc_variables w,
                             val_acc_variables w))
                  (fun _ _ => eq_refl) _ _ _ _ _ _ Hloop) as Hframe.
    cbn in Hframe. injection Hframe as Etv Entv Eov Etrain Eval.
    pose proof (@reattach_frame _ jax _
                  (fun w => (optimizer_variables w, train_acc_variables w,
                             val_acc_variables w))
                  (fun _ _ => eq_refl) (fun _ _ => eq_refl) _ _ _ _ Hre) as Hframe.
    cbn in Hframe. injection Hframe as Eov' Etrain' Eval'.
    pose proof Hre as Hwrites.
    apply reattach_writes in Hwrites as [Htv Hntv].
    rewrite Etv in Htv. rewrite Entv in Hntv.
    repeat split; try congruence.
    exists tv, ntv, ov. repeat split; assumption.
  - unfold WithMetrics.program in H2.
    apply mbind_inv in H2 as (st0 & w0 & Hinit & H2).
    apply mbind_inv in H2 as (trained & wa & Hloop & H2).
    apply mbind_inv in H2 as (st1 & wb & Hes & H2).
    apply mbind_inv in H2 as (evaluated & wc & Heval & H2).
    apply mret_inv in H2 as [_ ->].
    cbv [WithMetrics.initial_state mbind modify gets mret] in Hinit.
    injection Hinit as _ <-.
    pose proof (@training_loop_frame _ jax model loss_fn optimizer train_acc_metric _
                  (fun w => (model_trainable_variables w,
                             model_non_trainable_variables w,
                             optimizer_variables w))
                  (fun _ _ => eq_refl) (fun _ _ => eq_refl) _ _ _ _ _ _ Hloop)
      as Hframe.
    cbn in Hframe. injection Hframe as Etv Entv Eov.
    pose proof (@eval_state_frame _ _
                  (fun w => (model_trainable_variables w,
                             model_non_trainable_variables w,
                             optimizer_variables w)) _ _ _ _ Hes) as Hframe.
    cbn in Hframe. injection Hframe as Etv' Entv' Eov'.
    pose proof (@eval_loop_frame _ jax model loss_fn val_acc_metric _
                  (fun w => (model_trainable_variables w,
                             model_non_trainable_variables w,
                             optimizer_variables w))
                  (fun _ _ => eq_refl) (fun _ _ => eq_refl) _ _ _ _ _ _ Heval)
      as Hframe.
    cbn in Hframe. injection Hframe as Etv'' Entv'' Eov''.
    repeat split; congruence.
Qed.

(** ** The statements on the small instance *)

Lemma dims_eqb_eq (d1 : list nat) : forall d2, dims_eqb d1 d2 = true -> d1 = d2.
Proof.
  induction d1 as [|n d1 IH]; intros [|m d2] H; try discriminate H.
  - reflexivity.
  - cbn in H. apply andb_prop in H as [Hn Hd].
    apply Nat.eqb_eq in Hn. rewrite Hn, (IH _ Hd). reflexivity.
Qed.

Lemma toy_shapes_as_dims (vs : list Toy.tensor) :
  map (shape Toy.jax) vs = map (fun n => [n]) (Toy.dims vs).
Proof. unfold Toy.dims. rewrite map_map. reflexivity. Qed.

Lemma toy_shapes_dims (vs vs' : list Toy.tensor) :
  Toy.dims vs' = Toy.dims vs -> map (shape Toy.jax) vs' = map (shape Toy.jax) vs.
Proof. intros H. rewrite !toy_shapes_as_dims, H. reflexivity. Qed.

Lemma toy_dims_zip_with (f : Z -> Z -> Z) (a : list Toy.tensor) :
  forall b, Toy.dims b = Toy.dims a ->
            Toy.dims (Toy.zip_with (Toy.zip_with f) a b) = Toy.dims a.
Proof.
  induction a as [|t a IH]; intros [|u b] H; try discriminate H.
  - reflexivity.
  - cbn in H. injection H as Hlen Hrest.
    unfold Toy.dims, Toy.zip_with in *. cbn.
    rewrite (IH _ Hrest). f_equal.
    rewrite length_map, length_combine, Hlen. apply Nat.min_id.
Qed.

Lemma toy_model_keeps_shapes (regularized : bool) :
  model_keeps_shapes Toy.jax (Toy.model regularized).
Proof.
  intros tv ntv x training y_pred ntv' losses H. cbn in H.
  destruct tv as [|[|a [|b [|? ?]]] [|? ?]]; try discriminate H.
  destruct ntv as [|[|n [|? ?]] [|? ?]]; try discriminate H.
  injection H as _ <- _. reflexivity.
Qed.

Lemma toy_optimizer_keeps_shapes : optimizer_keeps_shapes Toy.jax Toy.optimizer.
Proof.
  intros ov g tv tv' ov' H. cbn in H.
  destruct (dims_eqb (Toy.dims g) (Toy.dims tv)) eqn:Etv; [|discriminate H].
  destruct (dims_eqb (Toy.dims g) (Toy.dims ov)) eqn:Eov; [|discriminate H].
  apply dims_eqb_eq in Etv, Eov. cbn in H. injection H as <- <-.
  split; apply toy_shapes_dims, toy_dims_zip_with; congruence.
Qed.

Lemma toy_metric_keeps_shapes : metric_keeps_shapes Toy.jax Toy.accuracy.
Proof.
  intros mv y y_pred mv' H. cbn in H.
  destruct mv as [|[|c [|? ?]] [|[|t [|? ?]] [|? ?]]]; try discriminate H.
  injection H as <-. reflexivity.
Qed.

(** The pure methods of the small instance: two invocations of each step,
    the loop rewriting the model and the training metric in between. *)
Lemma step_functions_pure_witness :
  (length [Toy.first_result; Toy.first_result] = 2 /\
   Forall (fun r => forall w0 : world Toy.tensor,
             Ambient.train_step Toy.methods Toy.first_state Toy.first_batch w0
             = Ok (r, w0))
     [Toy.first_result; Toy.first_result]) /\
  (length [Toy.first_eval_result; Toy.first_eval_result] = 2 /\
   Forall (fun r => forall w0 : world Toy.tensor,
             Ambient.eval_step Toy.methods Toy.first_eval_state Toy.first_batch w0
             = Ok (r, w0))
     [Toy.first_eval_result; Toy.first_eval_result]).
Proof.
  destruct (@step_functions_pure Toy.tensor Toy.methods
              (pure_methods_stateless Toy.jax (Toy.model false) Toy.loss_fn
                 Toy.optimizer Toy.accuracy Toy.accuracy))
    as (_ & _ & Htrain & Heval).
  split.
  - eapply (Htrain Toy.first_state Toy.first_batch 2 Toy.meddle Toy.fresh).
    vm_compute. reflexivity.
  - eapply (Heval Toy.first_eval_state Toy.first_batch 2 Toy.meddle Toy.fresh).
    vm_compute. reflexivity.
Defined.

(** The first training step on the small instance. *)
Lemma loss_and_metrics_use_input_parameters_witness :
  exists y_pred ntv' losses l mv' g tv' ov',
    forward (Toy.model false) [[2; 0]%Z] [[0%Z]] [1; 2]%Z None
      = Ok (y_pred, ntv', losses) /\
    Toy.loss_fn [2; 5]%Z y_pred = Ok l /\
    update_state Toy.accuracy [[0%Z]; [0%Z]] [2; 5]%Z y_pred = Ok mv' /\
    apply_gradients Toy.optimizer [[0; 0]%Z] g [[2; 0]%Z] = Ok (tv', ov') /\
    Toy.first_result = Tup [Arr l; state4 tv' ntv' ov' mv'].
Proof.
  apply (@loss_and_metrics_use_input_parameters Toy.tensor Toy.jax
           (Toy.model false) Toy.loss_fn Toy.optimizer Toy.accuracy).
  vm_compute. reflexivity.
Defined.

(** One pass of the training loop and two steps of the evaluation loop on
    the small instance. *)
Lemma state_signature_preserved_witness :
  signature_of Toy.jax (state4 [[1; 0]%Z] [[1%Z]] [[1; 0]%Z] [[1%Z]; [2%Z]])
  = signature_of Toy.jax Toy.first_state /\
  signature_of Toy.jax (state3 [[2; 0]%Z] [[2%Z]] [[2%Z]; [4%Z]])
  = signature_of Toy.jax Toy.first_eval_state.
Proof.
  destruct (@state_signature_preserved Toy.tensor Toy.jax (Toy.model false)
              Toy.loss_fn Toy.optimizer Toy.accuracy Toy.accuracy
              (toy_model_keeps_shapes false) toy_optimizer_keeps_shapes
              toy_metric_keeps_shapes toy_metric_keeps_shapes
              [[2; 0]%Z] [[0%Z]] [[0; 0]%Z] [[0%Z]; [0%Z]] [1; 2]%Z [2; 5]%Z)
    as (_ & _ & Htrain & Heval).
  split.
  - eapply (Htrain Toy.train_dataset 0 Toy.fresh). vm_compute. reflexivity.
  - eapply (Heval (Toy.train_dataset ++ Toy.train_dataset) 0 Toy.fresh).
    vm_compute. reflexivity.
Defined.

(** Two batches of integer labels, a hit being an equal label. *)
Lemma metric_accumulation_additive_witness :
  MetricSpec.reduce
    (MetricSpec.update Z.eqb
       (MetricSpec.update Z.eqb MetricSpec.reset [1; 2]%Z [1; 3]%Z) [5%Z] [5%Z]) =
  MetricSpec.reduce
    (MetricSpec.update Z.eqb MetricSpec.reset ([1; 2] ++ [5])%Z ([1; 3] ++ [5])%Z) /\
  MetricSpec.update Z.eqb
    (MetricSpec.update Z.eqb MetricSpec.reset [1; 2]%Z [1; 3]%Z) [5%Z] [5%Z] =
  MetricSpec.update Z.eqb
    (MetricSpec.update Z.eqb MetricSpec.reset [5%Z] [5%Z]) [1; 2]%Z [1; 3]%Z /\
  (forall a,
     MetricSpec.update Z.eqb (MetricSpec.update Z.eqb a [1; 2]%Z [1; 3]%Z)
       [5%Z] [5%Z] =
     MetricSpec.update Z.eqb a ([1; 2] ++ [5])%Z ([1; 3] ++ [5])%Z).
Proof.
  apply (@metric_accumulation_additive Z Z Z.eqb [1; 2]%Z [5%Z] [1; 3]%Z [5%Z]).
  reflexivity.
Defined.

(** Both programs run from the fresh objects of the small instance: the
    final state holds the optimizer values [[1; 0]], the optimizer object
    the zeros [build] gave it. *)
Lemma optimizer_object_keeps_build_values_witness :
  (optimizer_variables Toy.after_first_program
   = build_variables Toy.optimizer (model_trainable_variables Toy.fresh) /\
   train_acc_variables Toy.after_first_program = train_acc_variables Toy.fresh /\
   val_acc_variables Toy.after_first_program = val_acc_variables Toy.fresh /\
   exists tv ntv ov,
     Tup [Vars [[1; 0]%Z]; Vars [[1%Z]]; Vars [[1; 0]%Z]]
     = Tup [Vars tv; Vars ntv; Vars ov] /\
     assign_values Toy.jax (model_trainable_variables Toy.fresh) tv
       = Ok (model_trainable_variables Toy.after_first_program) /\
     assign_values Toy.jax (model_non_trainable_variables Toy.fresh) ntv
       = Ok (model_non_trainable_variables Toy.after_first_program)) /\
  (optimizer_variables Toy.after_program
   = build_variables Toy.optimizer (model_trainable_variables Toy.fresh) /\
   model_trainable_variables Toy.after_program
   = model_trainable_variables Toy.fresh /\
   model_non_trainable_variables Toy.after_program
   = model_non_trainable_variables Toy.fresh).
Proof.
  destruct (optimizer_object_keeps_build_values Toy.tensor) as [Hfirst Hmetrics].
  split.
  - eapply (Hfirst Toy.jax (Toy.model false) Toy.loss_fn Toy.optimizer
              Toy.train_dataset Toy.fresh).
    vm_compute. reflexivity.
  - eapply (Hmetrics Toy.jax (Toy.model false) Toy.loss_fn Toy.optimizer
              Toy.accuracy Toy.accuracy Toy.train_dataset Toy.val_dataset
              Toy.fresh).
    vm_compute. reflexivity.
Defined.

(** * Further properties of the cells *)

(** ** The validation split *)

Section SplitFacts.

Variable row : Type.

Lemma split_rows (n : nat) (a : list row) :
  DataPreparation.without_last_rows n a ++ DataPreparation.last_rows n a = a.
Proof.
  unfold DataPreparation.without_last_rows, DataPreparation.last_rows.
  destruct (Nat.eqb n 0); [reflexivity|apply firstn_skipn].
Qed.

Lemma length_last_rows (n : nat) (a : list row) :
  n <> 0 -> length (DataPreparation.last_rows n a) = Nat.min n (length a).
Proof.
  intros Hn. unfold DataPreparation.last_rows.
  destruct (Nat.eqb_spec n 0) as [E|_]; [contradiction|].
  rewrite length_skipn. lia.
Qed.

Lemma length_without_last_rows (n : nat) (a : list row) :
  n <> 0 -> length (DataPreparation.without_last_rows n a) = length a - n.
Proof.
  intros Hn. unfold DataPreparation.without_last_rows.
  destruct (Nat.eqb_spec n 0) as [E|_]; [contradiction|].
  rewrite length_firstn. lia.
Qed.

End SplitFacts.

(** X1.  The four assignments of cell 5 cut inputs and labels at the same place:
    the new training set followed by the validation set is the old training
    set, for inputs and for labels; the validation set has 10,000 samples,
    or all of them when there are fewer, and then nothing is left to train
    on; inputs and labels that were aligned stay aligned in both parts. *)
Theorem reserve_validation_partitions (input label : Type)
    (x : list input) (y : list label) :
  length x = length y ->
  match DataPreparation.reserve_validation x y with
  | (x_train, y_train, x_val, y_val) =>
      x_train ++ x_val = x /\
      y_train ++ y_val = y /\
      length x_val = Nat.min 10000 (length x) /\
      length x_train = length x - 10000 /\
      length x_train = length y_train /\
      length x_val = length y_val
  end.
Proof.
  intros Hlen. unfold DataPreparation.reserve_validation.
  assert (Hn : 10000 <> 0) by discriminate.
  repeat split.
  - apply split_rows.
  - apply split_rows.
  - apply length_last_rows, Hn.
  - apply length_without_last_rows, Hn.
  - rewrite !length_without_last_rows by exact Hn. rewrite Hlen. reflexivity.
  - rewrite !length_last_rows by exact Hn. rewrite Hlen. reflexivity.
Qed.

Lemma reserve_validation_partitions_witness :
  match DataPreparation.reserve_validation [1; 2; 3] [true; false; true] with
  | (x_train, y_train, x_val, y_val) =>
      x_train ++ x_val = [1; 2; 3] /\
      y_train ++ y_val = [true; false; true] /\
      length x_val = Nat.min 10000 (length [1; 2; 3]) /\
      length x_train = length [1; 2; 3] - 10000 /\
      length x_train = length y_train /\
      length x_val = length y_val
  end.
Proof.
  apply (@reserve_validation_partitions nat bool [1; 2; 3] [true; false; true]).
  reflexivity.
Defined.

(** ** What the loops compute and what they print *)

(** Taking apart a run of loop code that returned. *)
Ltac invert_run :=
  repeat match goal with
         | H : mbind _ _ _ = Ok _ |- _ =>
             apply mbind_inv in H; destruct H as (? & ? & ? & H)
         | H : lift _ _ = Ok _ |- _ =>
             apply lift_inv in H; destruct H as [H ?]; subst
         | H : mret _ _ = Ok _ |- _ =>
             apply mret_inv in H; destruct H; subst
         | H : gets _ _ = Ok _ |- _ =>
             apply gets_inv in H; destruct H; subst
         | H : modify _ _ = Ok _ |- _ => apply modify_inv in H; subst
         | H : print _ _ = Ok _ |- _ => unfold print in H
         | p : (_ * _)%type |- _ => destruct p
         | u : unit |- _ => destruct u
         end.

Lemma logged_steps_cons (step n : nat) :
  logged_steps step (S n) =
  (if Nat.eqb (step mod 100) 0 then [step] else []) ++ logged_steps (S step) n.
Proof.
  unfold logged_steps. cbn [seq filter].
  destruct (Nat.eqb (step mod 100) 0); reflexivity.
Qed.

Section LoopRuns.

Variable tensor : Type.
Variable jax : Jax tensor.
Variable model : Model tensor.
Variable loss_fn : Loss tensor.
Variable optimizer : Optimizer tensor.
Variable train_acc_metric : Metric tensor.
Variable val_acc_metric : Metric tensor.

(** What a logging block appends to the output. *)
Lemma log_training_stdout (step : nat) (loss state : pyval tensor)
    (w w' : world tensor) (u : unit) :
  WithMetrics.log_training jax train_acc_metric step loss state w = Ok (u, w') ->
  exists l a,
    stdout w' = stdout w ++ [TrainingLoss step l; TrainingAccuracy a;
                             SeenSoFar tensor ((step + 1) * batch_size)].
Proof.
  unfold WithMetrics.log_training. intros H. invert_run.
  eexists _, _. cbn. rewrite <- !app_assoc. reflexivity.
Qed.

Lemma log_validation_stdout (step : nat) (loss state : pyval tensor)
    (w w' : world tensor) (u : unit) :
  WithMetrics.log_validation jax val_acc_metric step loss state w = Ok (u, w') ->
  exists l a,
    stdout w' = stdout w ++ [ValidationLoss step l; ValidationAccuracy a;
                             SeenSoFar tensor ((step + 1) * batch_size)].
Proof.
  unfold WithMetrics.log_validation. intros H. invert_run.
  eexists _, _. cbn. rewrite <- !app_assoc. reflexivity.
Qed.

(** A run of the training loop of cell 25: the state it returns is the one
    the step function alone leads to, and it has logged at the steps that
    are multiples of 100. *)
Lemma training_loop_run (train_dataset : list (tensor * tensor)) :
  forall step state w final w',
    WithMetrics.training_loop jax model loss_fn optimizer train_acc_metric
      step train_dataset state w = Ok (final, w') ->
    fold_steps (WithMetrics.train_step jax model loss_fn optimizer train_acc_metric)
      train_dataset state = Ok final /\
    flat_map (@loss_step tensor) (stdout w') =
      flat_map (@loss_step tensor) (stdout w)
      ++ logged_steps step (length train_dataset) /\
    flat_map (@seen_samples tensor) (stdout w') =
      flat_map (@seen_samples tensor) (stdout w)
      ++ map (fun k => (k + 1) * batch_size)
           (logged_steps step (length train_dataset)).
Proof.
  induction train_dataset as [|[x y] rest IH]; intros step state w final w' H.
  - apply mret_inv in H as [-> ->]. cbn. rewrite !app_nil_r. repeat split.
  - cbn [WithMetrics.training_loop] in H.
    apply mbind_inv in H as (out & w1 & Hstep & H).
    apply lift_inv in Hstep as [Hstep ->].
    apply mbind_inv in H as ([loss state'] & w2 & Hun & H).
    apply lift_inv in Hun as [Hun ->].
    apply mbind_inv in H as ([] & w3 & Hlog & H).
    apply IH in H as (Hfold & Hsteps & Hseen).
    cbn [fold_steps length]. rewrite Hstep. cbn [bind]. rewrite Hun. cbn [bind].
    split; [exact Hfold|].
    rewrite logged_steps_cons, Hsteps, Hseen.
    destruct (Nat.eqb (step mod 100) 0).
    + apply log_training_stdout in Hlog as (l & a & ->).
      rewrite !flat_map_app. cbn. rewrite <- !app_assoc. split; reflexivity.
    + apply mret_inv in Hlog as [_ ->]. split; reflexivity.
Qed.

(** The same for the evaluation loop. *)
Lemma eval_loop_run (val_dataset : list (tensor * tensor)) :
  forall step state w final w',
    WithMetrics.eval_loop jax model loss_fn val_acc_metric
      step val_dataset state w = Ok (final, w') ->
    fold_steps (WithMetrics.eval_step model loss_fn val_acc_metric)
      val_dataset state = Ok final /\
    flat_map (@loss_step tensor) (stdout w') =
      flat_map (@loss_step tensor) (stdout w)
      ++ logged_steps step (length val_dataset) /\
    flat_map (@seen_samples tensor) (stdout w') =
      flat_map (@seen_samples tensor) (stdout w)
      ++ map (fun k => (k + 1) * batch_size)
           (logged_steps step (length val_dataset)).
Proof.
  induction val_dataset as [|[x y] rest IH]; intros step state w final w' H.
  - apply mret_inv in H as [-> ->]. cbn. rewrite !app_nil_r. repeat split.
  - cbn [WithMetrics.eval_loop] in H.
    apply mbind_inv in H as (out & w1 & Hstep & H).
    apply lift_inv in Hstep as [Hstep ->].
    apply mbind_inv in H as ([loss state'] & w2 & Hun & H).
    apply lift_inv in Hun as [Hun ->].
    apply mbind_inv in H as ([] & w3 & Hlog & H).
    apply IH in H as (Hfold & Hsteps & Hseen).
    cbn [fold_steps length]. rewrite Hstep. cbn [bind]. rewrite Hun. cbn [bind].
    split; [exact Hfold|].
    rewrite logged_steps_cons, Hsteps, Hseen.
    destruct (Nat.eqb (step mod 100) 0).
    + apply log_validation_stdout in Hlog as (l & a & ->).
      rewrite !flat_map_app. cbn. rewrite <- !app_assoc. split; reflexivity.
    + apply mret_inv in Hlog as [_ ->]. split; reflexivity.
Qed.

(** The same for the training loop of cell 17. *)
Lemma first_training_loop_run (train_dataset : list (tensor * tensor)) :
  forall step state w final w',
    FirstExample.training_loop jax model loss_fn optimizer
      step train_dataset state w = Ok (final, w') ->
    fold_steps (FirstExample.train_step jax model loss_fn optimizer)
      train_dataset state = Ok final /\
    flat_map (@loss_step tensor) (stdout w') =
      flat_map (@loss_step tensor) (stdout w)
      ++ logged_steps step (length train_dataset) /\
    flat_map (@seen_samples tensor) (stdout w') =
      flat_map (@seen_samples tensor) (stdout w)
      ++ map (fun k => (k + 1) * batch_size)
           (logged_steps step (length train_dataset)).
Proof.
  induction train_dataset as [|[x y] rest IH]; intros step state w final w' H.
  - apply mret_inv in H as [-> ->]. cbn. rewrite !app_nil_r. repeat split.
  - cbn [FirstExample.training_loop] in H.
    apply mbind_inv in H as (out & w1 & Hstep & H).
    apply lift_inv in Hstep as [Hstep ->].
    apply mbind_inv in H as ([loss state'] & w2 & Hun & H).
    apply lift_inv in Hun as [Hun ->].
    apply mbind_inv in H as ([] & w3 & Hlog & H).
    apply IH in H as (Hfold & Hsteps & Hseen).
    cbn [fold_steps length]. rewrite Hstep. cbn [bind]. rewrite Hun. cbn [bind].
    split; [exact Hfold|].
    rewrite logged_steps_cons, Hsteps, Hseen.
    destruct (Nat.eqb (step mod 100) 0).
    + invert_run. cbn. rewrite !flat_map_app. cbn.
      rewrite <- !app_assoc. split; reflexivity.
    + apply mret_inv in Hlog as [_ ->]. split; reflexivity.
Qed.

End LoopRuns.

(** X2.  The state each of the three loops returns is the state the step
    function alone leads to, batch after batch: what the loop prints, what
    it assigns to the metric objects and where its step counter stands have
    no part in it.  Each loop is taken on its own run. *)
Theorem loops_return_the_fold (tensor : Type) :
  (forall (jax : Jax tensor) (model : Model tensor) (loss_fn : Loss tensor)
          (optimizer : Optimizer tensor)
          (train_dataset : list (tensor * tensor)) (step : nat)
          (state final : pyval tensor) (w w' : world tensor),
     FirstExample.training_loop jax model loss_fn optimizer
       step train_dataset state w = Ok (final, w') ->
     fold_steps (FirstExample.train_step jax model loss_fn optimizer)
       train_dataset state = Ok final) /\
  (forall (jax : Jax tensor) (model : Model tensor) (loss_fn : Loss tensor)
          (optimizer : Optimizer tensor) (train_acc_metric : Metric tensor)
          (train_dataset : list (tensor * tensor)) (step : nat)
          (state final : pyval tensor) (w w' : world tensor),
     WithMetrics.training_loop jax model loss_fn optimizer train_acc_metric
       step train_dataset state w = Ok (final, w') ->
     fold_steps
       (WithMetrics.train_step jax model loss_fn optimizer train_acc_metric)
       train_dataset state = Ok final) /\
  (forall (jax : Jax tensor) (model : Model tensor) (loss_fn : Loss tensor)
          (val_acc_metric : Metric tensor)
          (val_dataset : list (tensor * tensor)) (step : nat)
          (state final : pyval tensor) (w w' : world tensor),
     WithMetrics.eval_loop jax model loss_fn val_acc_metric
       step val_dataset state w = Ok (final, w') ->
     fold_steps (WithMetrics.eval_step model loss_fn val_acc_metric)
       val_dataset state = Ok final).
Proof.
  split; [|split].
  - intros jax model loss_fn optimizer train_dataset step state final w w' H.
    apply first_training_loop_run in H as [H _]. exact H.
  - intros jax model loss_fn optimizer train_acc_metric train_dataset step
      state final w w' H.
    apply training_loop_run in H as [H _]. exact H.
  - intros jax model loss_fn val_acc_metric val_dataset step state final w w' H.
    apply eval_loop_run in H as [H _]. exact H.
Qed.

(** Three runs on the small instance: different worlds, different steps. *)
Lemma loops_return_the_fold_witness :
  fold_steps (FirstExample.train_step Toy.jax (Toy.model false) Toy.loss_fn
                Toy.optimizer)
    Toy.train_dataset (Tup [Vars [[2; 0]%Z]; Vars [[0%Z]]; Vars [[0; 0]%Z]])
  = Ok (Tup [Vars [[1; 0]%Z]; Vars [[1%Z]]; Vars [[1; 0]%Z]]) /\
  fold_steps (WithMetrics.train_step Toy.jax (Toy.model false) Toy.loss_fn
                Toy.optimizer Toy.accuracy)
    Toy.train_dataset Toy.first_state
  = Ok (state4 [[1; 0]%Z] [[1%Z]] [[1; 0]%Z] [[1%Z]; [2%Z]]) /\
  fold_steps (WithMetrics.eval_step (Toy.model false) Toy.loss_fn Toy.accuracy)
    Toy.val_dataset Toy.first_eval_state
  = Ok (state3 [[2; 0]%Z] [[1%Z]] [[0%Z]; [1%Z]]).
Proof.
  destruct (loops_return_the_fold Toy.tensor) as (Hfirst & Htrain & Heval).
  split; [|split].
  - eapply (Hfirst Toy.jax (Toy.model false) Toy.loss_fn Toy.optimizer
              Toy.train_dataset 0 _ _ Toy.fresh).
    vm_compute. reflexivity.
  - eapply (Htrain Toy.jax (Toy.model false) Toy.loss_fn Toy.optimizer
              Toy.accuracy Toy.train_dataset 100 _ _ Toy.after_first_program).
    vm_compute. reflexivity.
  - eapply (Heval Toy.jax (Toy.model false) Toy.loss_fn Toy.accuracy
              Toy.val_dataset 7 _ _ Toy.after_program).
    vm_compute. reflexivity.
Defined.

(** X3.  The loops of cell 25 log at the steps that are multiples of 100 and at
    no other: started at step 0 on [n] batches, the training loop prints
    its loss lines for the steps 0, 100, 200, ... below [n], and so does
    the evaluation loop.  The sample count of each "Seen so far" line is
    [(step + 1) * 32]: it is computed from the step alone, whatever the
    batches hold. *)
Theorem loops_log_every_hundred_steps (tensor : Type) (jax : Jax tensor)
    (model : Model tensor) (loss_fn : Loss tensor) (optimizer : Optimizer tensor)
    (train_acc_metric val_acc_metric : Metric tensor)
    (train_dataset val_dataset : list (tensor * tensor))
    (s1 s2 f1 f2 : pyval tensor) (w1 w2 w1' w2' : world tensor) :
  WithMetrics.training_loop jax model loss_fn optimizer train_acc_metric
    0 train_dataset s1 w1 = Ok (f1, w1') ->
  WithMetrics.eval_loop jax model loss_fn val_acc_metric
    0 val_dataset s2 w2 = Ok (f2, w2') ->
  (flat_map (@loss_step tensor) (stdout w1') =
     flat_map (@loss_step tensor) (stdout w1)
     ++ logged_steps 0 (length train_dataset) /\
   flat_map (@seen_samples tensor) (stdout w1') =
     flat_map (@seen_samples tensor) (stdout w1)
     ++ map (fun k => (k + 1) * 32) (logged_steps 0 (length train_dataset))) /\
  (flat_map (@loss_step tensor) (stdout w2') =
     flat_map (@loss_step tensor) (stdout w2)
     ++ logged_steps 0 (length val_dataset) /\
   flat_map (@seen_samples tensor) (stdout w2') =
     flat_map (@seen_samples tensor) (stdout w2)
     ++ map (fun k => (k + 1) * 32) (logged_steps 0 (length val_dataset))).
Proof.
  intros H1 H2.
  apply training_loop_run in H1 as (_ & H1 & H1').
  apply eval_loop_run in H2 as (_ & H2 & H2').
  repeat split; assumption.
Qed.

(** Three training batches of two samples and one validation batch of one
    sample: one loss line each, at step 0, and 32 samples reported seen. *)
Lemma loops_log_every_hundred_steps_witness :
  match
    WithMetrics.training_loop Toy.jax (Toy.model false) Toy.loss_fn Toy.optimizer
      Toy.accuracy 0 (Toy.train_dataset ++ Toy.train_dataset ++ Toy.train_dataset)
      Toy.first_state Toy.fresh,
    WithMetrics.eval_loop Toy.jax (Toy.model false) Toy.loss_fn Toy.accuracy
      0 Toy.val_dataset Toy.first_eval_state Toy.fresh
  with
  | Ok (_, w1'), Ok (_, w2') =>
      (flat_map (@loss_step Toy.tensor) (stdout w1') = [0] /\
       flat_map (@seen_samples Toy.tensor) (stdout w1') = [32]) /\
      (flat_map (@loss_step Toy.tensor) (stdout w2') = [0] /\
       flat_map (@seen_samples Toy.tensor) (stdout w2') = [32])
  | _, _ => False
  end.
Proof.
  destruct (WithMetrics.training_loop Toy.jax (Toy.model false) Toy.loss_fn
              Toy.optimizer Toy.accuracy 0
              (Toy.train_dataset ++ Toy.train_dataset ++ Toy.train_dataset)
              Toy.first_state Toy.fresh) as [[f1 w1']|e] eqn:E1;
    [|vm_compute in E1; discriminate E1].
  destruct (WithMetrics.eval_loop Toy.jax (Toy.model false) Toy.loss_fn
              Toy.accuracy 0 Toy.val_dataset Toy.first_eval_state Toy.fresh)
    as [[f2 w2']|e] eqn:E2; [|vm_compute in E2; discriminate E2].
  eapply loops_log_every_hundred_steps in E1; [|exact E2].
  exact E1.
Defined.

(** ** Between two log points *)

Section Quiet.

Variable tensor : Type.
Variable jax : Jax tensor.
Variable model : Model tensor.
Variable loss_fn : Loss tensor.
Variable optimizer : Optimizer tensor.
Variable train_acc_metric : Metric tensor.
Variable val_acc_metric : Metric tensor.

Lemma training_loop_quiet (train_dataset : list (tensor * tensor)) :
  forall step state w final w',
    Forall (fun k => k mod 100 <> 0) (seq step (length train_dataset)) ->
    WithMetrics.training_loop jax model loss_fn optimizer train_acc_metric
      step train_dataset state w = Ok (final, w') ->
    w' = w.
Proof.
  induction train_dataset as [|[x y] rest IH]; intros step state w final w' HF H.
  - apply mret_inv in H as [_ ->]. reflexivity.
  - cbn [length seq] in HF. inversion HF as [|k ks Hk HF']; subst.
    cbn [WithMetrics.training_loop] in H.
    apply mbind_inv in H as (out & w1 & Hstep & H).
    apply lift_inv in Hstep as [_ ->].
    apply mbind_inv in H as ([loss state'] & w2 & Hun & H).
    apply lift_inv in Hun as [_ ->].
    apply mbind_inv in H as ([] & w3 & Hlog & H).
    destruct (Nat.eqb_spec (step mod 100) 0) as [E|_]; [contradiction|].
    apply mret_inv in Hlog as [_ ->].
    exact (IH _ _ _ _ _ HF' H).
Qed.

Lemma eval_loop_quiet (val_dataset : list (tensor * tensor)) :
  forall step state w final w',
    Forall (fun k => k mod 100 <> 0) (seq step (length val_dataset)) ->
    WithMetrics.eval_loop jax model loss_fn val_acc_metric
      step val_dataset state w = Ok (final, w') ->
    w' = w.
Proof.
  induction val_dataset as [|[x y] rest IH]; intros step state w final w' HF H.
  - apply mret_inv in H as [_ ->]. reflexivity.
  - cbn [length seq] in HF. inversion HF as [|k ks Hk HF']; subst.
    cbn [WithMetrics.eval_loop] in H.
    apply mbind_inv in H as (out & w1 & Hstep & H).
    apply lift_inv in Hstep as [_ ->].
    apply mbind_inv in H as ([loss state'] & w2 & Hun & H).
    apply lift_inv in Hun as [_ ->].
    apply mbind_inv in H as ([] & w3 & Hlog & H).
    destruct (Nat.eqb_spec (step mod 100) 0) as [E|_]; [contradiction|].
    apply mret_inv in Hlog as [_ ->].
    exact (IH _ _ _ _ _ HF' H).
Qed.

End Quiet.

(** X4.  Iterations whose step is not a multiple of 100 print nothing and assign
    to no object: over such a stretch of either loop of cell 25 the metric
    object keeps the values of the last log point, however far the
    accumulator in the state tuple has moved on. *)
Theorem loops_touch_nothing_between_logs (tensor : Type) (jax : Jax tensor)
    (model : Model tensor) (loss_fn : Loss tensor) (optimizer : Optimizer tensor)
    (train_acc_metric val_acc_metric : Metric tensor)
    (train_dataset val_dataset : list (tensor * tensor))
    (step1 step2 : nat) (s1 s2 f1 f2 : pyval tensor)
    (w1 w2 w1' w2' : world tensor) :
  Forall (fun k => k mod 100 <> 0) (seq step1 (length train_dataset)) ->
  Forall (fun k => k mod 100 <> 0) (seq step2 (length val_dataset)) ->
  WithMetrics.training_loop jax model loss_fn optimizer train_acc_metric
    step1 train_dataset s1 w1 = Ok (f1, w1') ->
  WithMetrics.eval_loop jax model loss_fn val_acc_metric
    step2 val_dataset s2 w2 = Ok (f2, w2') ->
  w1' = w1 /\ w2' = w2.
Proof.
  intros HF1 HF2 H1 H2. split.
  - eapply training_loop_quiet; [exact HF1|exact H1].
  - eapply eval_loop_quiet; [exact HF2|exact H2].
Qed.

(** Steps 1 to 3 of training and step 7 of evaluation on the small
    instance. *)
Lemma loops_touch_nothing_between_logs_witness :
  match
    WithMetrics.training_loop Toy.jax (Toy.model false) Toy.loss_fn Toy.optimizer
      Toy.accuracy 1 (Toy.train_dataset ++ Toy.train_dataset ++ Toy.train_dataset)
      Toy.first_state Toy.fresh,
    WithMetrics.eval_loop Toy.jax (Toy.model false) Toy.loss_fn Toy.accuracy
      7 Toy.val_dataset Toy.first_eval_state Toy.after_program
  with
  | Ok (_, w1'), Ok (_, w2') => w1' = Toy.fresh /\ w2' = Toy.after_program
  | _, _ => False
  end.
Proof.
  destruct (WithMetrics.training_loop Toy.jax (Toy.model false) Toy.loss_fn
              Toy.optimizer Toy.accuracy 1
              (Toy.train_dataset ++ Toy.train_dataset ++ Toy.train_dataset)
              Toy.first_state Toy.fresh) as [[f1 w1']|e] eqn:E1;
    [|vm_compute in E1; discriminate E1].
  destruct (WithMetrics.eval_loop Toy.jax (Toy.model false) Toy.loss_fn
              Toy.accuracy 7 Toy.val_dataset Toy.first_eval_state
              Toy.after_program) as [[f2 w2']|e] eqn:E2;
    [|vm_compute in E2; discriminate E2].
  eapply loops_touch_nothing_between_logs in E1;
    [exact E1| | |exact E2]; repeat constructor; discriminate.
Defined.

(** ** The training step and the evaluation step on the same arguments *)

(** X6.  When the two metric objects are of one kind, as the two
    [CategoricalAccuracy] of cell 21 are, [eval_step] on the trainable,
    non-trainable and metric values given to [train_step] returns the loss,
    the non-trainable values and the metric accumulator [train_step]
    returned: the loss a training step reports is the evaluation loss
    before the update. *)
Theorem eval_step_reproduces_training_report (tensor : Type) (jax : Jax tensor)
    (model : Model tensor) (loss_fn : Loss tensor) (optimizer : Optimizer tensor)
    (metric : Metric tensor)
    (tv ntv ov mv : list tensor) (x y : tensor) (r : pyval tensor) :
  WithMetrics.train_step jax model loss_fn optimizer metric
    (state4 tv ntv ov mv) (batch x y) = Ok r ->
  exists l tv' ntv' ov' mv',
    r = Tup [Arr l; state4 tv' ntv' ov' mv'] /\
    WithMetrics.eval_step model loss_fn metric (state3 tv ntv mv) (batch x y)
    = Ok (Tup [Arr l; state3 tv ntv' mv']).
Proof.
  rewrite train_step_eq, eval_step_eq. intros H.
  apply bind_inv in H as ([[y_pred ntv'] losses] & Hf & H).
  apply bind_inv in H as (l & Hl & H).
  apply bind_inv in H as (mv' & Hm & H).
  apply bind_inv in H as (g & _ & H).
  apply bind_inv in H as ([tv' ov'] & _ & H).
  injection H as <-.
  exists l, tv', ntv', ov', mv'. split; [reflexivity|].
  rewrite Hf. cbn. rewrite Hl. cbn. rewrite Hm. reflexivity.
Qed.

Lemma eval_step_reproduces_training_report_witness :
  exists l tv' ntv' ov' mv',
    Toy.first_result = Tup [Arr l; state4 tv' ntv' ov' mv'] /\
    WithMetrics.eval_step (Toy.model false) Toy.loss_fn Toy.accuracy
      (state3 [[2; 0]%Z] [[0%Z]] [[0%Z]; [0%Z]]) (batch [1; 2]%Z [2; 5]%Z)
    = Ok (Tup [Arr l; state3 [[2; 0]%Z] ntv' mv']).
Proof.
  apply (@eval_step_reproduces_training_report Toy.tensor Toy.jax
           (Toy.model false) Toy.loss_fn Toy.optimizer Toy.accuracy
           [[2; 0]%Z] [[0%Z]] [[0; 0]%Z] [[0%Z]; [0%Z]] [1; 2]%Z [2; 5]%Z).
  vm_compute. reflexivity.
Defined.

(** ** Cell 31 against cell 21 *)

(** X7.  On arguments on which the forward pass, the loss and the metric
    update return, the [compute_loss_and_updates] of cell 21 returns the
    pair (loss, (non_trainable, metric)).  The one of cell 31 returns the
    same three values side by side when the model tracked no loss during
    the pass, and raises [TypeError] when it tracked some: the sum it means
    to add is asked of [jax.numpy.sum] on the Python list of the losses. *)
Theorem tracked_losses_variant_against_cell_21 (tensor : Type) (jax : Jax tensor)
    (model : Model tensor) (loss_fn : Loss tensor) (train_acc_metric : Metric tensor)
    (tv ntv mv : list tensor) (x y : tensor)
    (y_pred : tensor) (ntv' losses : list tensor) (l : tensor) (mv' : list tensor) :
  forward model tv ntv x None = Ok (y_pred, ntv', losses) ->
  loss_fn y y_pred = Ok l ->
  update_state train_acc_metric mv y y_pred = Ok mv' ->
  WithMetrics.compute_loss_and_updates model loss_fn train_acc_metric
    [Vars tv; Vars ntv; Vars mv; Arr x; Arr y]
  = Ok (Tup [Arr l; Tup [Vars ntv'; Vars mv']]) /\
  TrackedLosses.compute_loss_and_updates jax model loss_fn train_acc_metric
    [Vars tv; Vars ntv; Vars mv; Arr x; Arr y]
  = match losses with
    | [] => Ok (Tup [Arr l; Vars ntv'; Vars mv'])
    | _ :: _ => Raise TypeError
    end.
Proof.
  intros Hf Hl Hm.
  unfold WithMetrics.compute_loss_and_updates,
    TrackedLosses.compute_loss_and_updates, stateless_call, call_loss,
    stateless_update_state, truthy.
  cbn. rewrite Hf. cbn. rewrite Hl. cbn. rewrite Hm. cbn.
  split; [reflexivity|].
  destruct losses as [|l0 ls]; reflexivity.
Qed.

(** The small model without and with a tracked loss. *)
Lemma tracked_losses_variant_against_cell_21_witness :
  (WithMetrics.compute_loss_and_updates (Toy.model false) Toy.loss_fn Toy.accuracy
     [Vars [[2; 0]%Z]; Vars [[0%Z]]; Vars [[0%Z]; [0%Z]]; Arr [1; 2]%Z; Arr [2; 5]%Z]
   = Ok (Tup [Arr [1%Z]; Tup [Vars [[1%Z]]; Vars [[1%Z]; [2%Z]]]]) /\
   TrackedLosses.compute_loss_and_updates Toy.jax (Toy.model false) Toy.loss_fn
     Toy.accuracy
     [Vars [[2; 0]%Z]; Vars [[0%Z]]; Vars [[0%Z]; [0%Z]]; Arr [1; 2]%Z; Arr [2; 5]%Z]
   = Ok (Tup [Arr [1%Z]; Vars [[1%Z]]; Vars [[1%Z]; [2%Z]]])) /\
  (WithMetrics.compute_loss_and_updates (Toy.model true) Toy.loss_fn Toy.accuracy
     [Vars [[2; 0]%Z]; Vars [[0%Z]]; Vars [[0%Z]; [0%Z]]; Arr [1; 2]%Z; Arr [2; 5]%Z]
   = Ok (Tup [Arr [1%Z]; Tup [Vars [[1%Z]]; Vars [[1%Z]; [2%Z]]]]) /\
   TrackedLosses.compute_loss_and_updates Toy.jax (Toy.model true) Toy.loss_fn
     Toy.accuracy
     [Vars [[2; 0]%Z]; Vars [[0%Z]]; Vars [[0%Z]; [0%Z]]; Arr [1; 2]%Z; Arr [2; 5]%Z]
   = Raise TypeError).
Proof.
  split.
  - apply (@tracked_losses_variant_against_cell_21 Toy.tensor Toy.jax
             (Toy.model false) Toy.loss_fn Toy.accuracy
             [[2; 0]%Z] [[0%Z]] [[0%Z]; [0%Z]] [1; 2]%Z [2; 5]%Z
             [2; 4]%Z [[1%Z]] [] [1%Z] [[1%Z]; [2%Z]]);
      reflexivity.
  - apply (@tracked_losses_variant_against_cell_21 Toy.tensor Toy.jax
             (Toy.model true) Toy.loss_fn Toy.accuracy
             [[2; 0]%Z] [[0%Z]] [[0%Z]; [0%Z]] [1; 2]%Z [2; 5]%Z
             [2; 4]%Z [[1%Z]] [[6%Z]] [1%Z] [[1%Z]; [2%Z]]);
      reflexivity.
Defined.

(** ** Arity of the state tuples *)

(** X8.  The step functions take a state of exactly their own arity: a tuple of
    any other length makes [train_step] of cell 15 (three components),
    [train_step] of cell 21 (four) and [eval_step] (three) raise
    [ValueError] before anything is computed.  In particular the state the
    training loop of cell 25 ends with cannot be handed to [eval_step] as
    it is. *)
Theorem step_functions_check_arity (tensor : Type) (jax : Jax tensor)
    (model : Model tensor) (loss_fn : Loss tensor) (optimizer : Optimizer tensor)
    (train_acc_metric val_acc_metric : Metric tensor)
    (items : list (pyval tensor)) (data : pyval tensor) :
  (length items <> 3 ->
   FirstExample.train_step jax model loss_fn optimizer (Tup items) data
   = Raise ValueError) /\
  (length items <> 4 ->
   WithMetrics.train_step jax model loss_fn optimizer train_acc_metric
     (Tup items) data = Raise ValueError) /\
  (length items <> 3 ->
   WithMetrics.eval_step model loss_fn val_acc_metric (Tup items) data
   = Raise ValueError) /\
  (forall tv ntv ov mv,
     WithMetrics.eval_step model loss_fn val_acc_metric (state4 tv ntv ov mv) data
     = Raise ValueError).
Proof.
  split; [|split; [|split]].
  - intros H. destruct items as [|a [|b [|c [|d ?]]]]; try reflexivity.
    cbn in H. contradiction.
  - intros H. destruct items as [|a [|b [|c [|d [|e ?]]]]]; try reflexivity.
    cbn in H. contradiction.
  - intros H. destruct items as [|a [|b [|c [|d ?]]]]; try reflexivity.
    cbn in H. contradiction.
  - reflexivity.
Qed.

(** ** The shape of what cell 25 returns *)

Section ProgramStates.

Variable tensor : Type.
Variable jax : Jax tensor.
Variable model : Model tensor.
Variable loss_fn : Loss tensor.
Variable optimizer : Optimizer tensor.
Variable train_acc_metric : Metric tensor.
Variable val_acc_metric : Metric tensor.

Lemma train_step_state (tv ntv ov mv : list tensor) (x y : tensor)
    (r : pyval tensor) :
  WithMetrics.train_step jax model loss_fn optimizer train_acc_metric
    (state4 tv ntv ov mv) (batch x y) = Ok r ->
  exists l tv' ntv' ov' mv', r = Tup [Arr l; state4 tv' ntv' ov' mv'].
Proof.
  rewrite train_step_eq. intros H.
  apply bind_inv in H as ([[y_pred ntv'] losses] & _ & H).
  apply bind_inv in H as (l & _ & H).
  apply bind_inv in H as (mv' & _ & H).
  apply bind_inv in H as (g & _ & H).
  apply bind_inv in H as ([tv' ov'] & _ & H).
  injection H as <-.
  exists l, tv', ntv', ov', mv'. reflexivity.
Qed.

Lemma training_loop_state (train_dataset : list (tensor * tensor)) :
  forall step tv ntv ov mv w final w',
    WithMetrics.training_loop jax model loss_fn optimizer train_acc_metric
      step train_dataset (state4 tv ntv ov mv) w = Ok (final, w') ->
    exists tv' ntv' ov' mv', final = state4 tv' ntv' ov' mv'.
Proof.
  induction train_dataset as [|[x y] rest IH]; intros step tv ntv ov mv w w0 final H.
  - apply mret_inv in H as [-> _]. eexists _, _, _, _. reflexivity.
  - cbn [WithMetrics.training_loop] in H.
    apply mbind_inv in H as (out & w1 & Hstep & H).
    apply lift_inv in Hstep as [Hstep ->].
    apply train_step_state in Hstep as (l & tv' & ntv' & ov' & mv' & ->).
    apply mbind_inv in H as ([loss state'] & w2 & Hun & H).
    apply lift_inv in Hun as [Hun ->].
    cbn in Hun. injection Hun as <- <-.
    apply mbind_inv in H as ([] & w3 & _ & H).
    exact (IH _ _ _ _ _ _ _ _ H).
Qed.

Lemma eval_loop_state (val_dataset : list (tensor * tensor)) :
  forall step tv ntv mv w final w',
    WithMetrics.eval_loop jax model loss_fn val_acc_metric
      step val_dataset (state3 tv ntv mv) w = Ok (final, w') ->
    exists ntv' mv', final = state3 tv ntv' mv'.
Proof.
  induction val_dataset as [|[x y] rest IH]; intros step tv ntv mv w w0 final H.
  - apply mret_inv in H as [-> _]. eexists _, _. reflexivity.
  - cbn [WithMetrics.eval_loop] in H.
    apply mbind_inv in H as (out & w1 & Hstep & H).
    apply lift_inv in Hstep as [Hstep ->].
    change (Tup [Arr x; Arr y]) with (batch x y) in Hstep.
    rewrite eval_step_eq in Hstep.
    apply bind_inv in Hstep as ([[y_pred ntv'] losses] & _ & Hstep).
    apply bind_inv in Hstep as (l & _ & Hstep).
    apply bind_inv in Hstep as (mv' & _ & Hstep).
    injection Hstep as <-.
    apply mbind_inv in H as ([loss state'] & w2 & Hun & H).
    apply lift_inv in Hun as [Hun ->].
    cbn in Hun. injection Hun as <- <-.
    apply mbind_inv in H as ([] & w3 & _ & H).
    exact (IH _ _ _ _ _ _ _ H).
Qed.

End ProgramStates.

(** X9.  Whatever the datasets, when cell 25 runs to its end the evaluation loop
    returns the trainable values the training loop returned: the state
    after training has four components, the state after evaluation has the
    first of them unchanged, however many validation batches went by, and
    no optimizer component. *)
Theorem evaluation_returns_the_trained_parameters (tensor : Type)
    (jax : Jax tensor) (model : Model tensor) (loss_fn : Loss tensor)
    (optimizer : Optimizer tensor) (train_acc_metric val_acc_metric : Metric tensor)
    (train_dataset val_dataset : list (tensor * tensor))
    (w w' : world tensor) (trained evaluated : pyval tensor) :
  WithMetrics.program jax model loss_fn optimizer train_acc_metric val_acc_metric
    train_dataset val_dataset w = Ok ((trained, evaluated), w') ->
  exists tv ntv ov mv ntv' mv',
    trained = state4 tv ntv ov mv /\ evaluated = state3 tv ntv' mv'.
Proof.
  unfold WithMetrics.program. intros H.
  apply mbind_inv in H as (st0 & w0 & Hinit & H).
  apply mbind_inv in H as (trained0 & wa & Hloop & H).
  apply mbind_inv in H as (st1 & wb & Hes & H).
  apply mbind_inv in H as (evaluated0 & wc & Heval & H).
  apply mret_inv in H as [H _]. injection H as <- <-.
  cbv [WithMetrics.initial_state mbind modify gets mret] in Hinit.
  injection Hinit as <- _.
  apply training_loop_state in Hloop as (tv & ntv & ov & mv & ->).
  cbv [WithMetrics.eval_state mbind gets lift mret state4 unpack4 items_of bind]
    in Hes.
  injection Hes as <- _.
  apply (@eval_loop_state _ jax model loss_fn val_acc_metric val_dataset 0
           tv ntv mv) in Heval as (ntv' & mv' & ->).
  exists tv, ntv, ov, mv, ntv', mv'. split; reflexivity.
Qed.

Lemma evaluation_returns_the_trained_parameters_witness :
  exists tv ntv ov mv ntv' mv',
    state4 [[1; 0]%Z] [[1%Z]] [[1; 0]%Z] [[1%Z]; [2%Z]] = state4 tv ntv ov mv /\
    state3 [[1; 0]%Z] [[2%Z]] [[2%Z]; [3%Z]] = state3 tv ntv' mv'.
Proof.
  eapply (@evaluation_returns_the_trained_parameters Toy.tensor Toy.jax
            (Toy.model false) Toy.loss_fn Toy.optimizer Toy.accuracy Toy.accuracy
            Toy.train_dataset Toy.val_dataset Toy.fresh Toy.after_program).
  vm_compute. reflexivity.
Defined.

(** ** Assigning values to variables *)

Section Assign.

Variable tensor : Type.
Variable jax : Jax tensor.

Lemma dims_eqb_refl (d : list nat) : dims_eqb d d = true.
Proof.
  induction d as [|n d IH]; [reflexivity|].
  cbn. rewrite Nat.eqb_refl, IH. reflexivity.
Qed.

(** Values of the shapes of the variables are all taken. *)
Lemma assign_values_same_shapes (variables : list tensor) :
  forall values,
    map (shape jax) variables = map (shape jax) values ->
    assign_values jax variables values = Ok values.
Proof.
  induction variables as [|v vs IH]; intros [|x xs] H; try discriminate H.
  - reflexivity.
  - cbn in H. injection H as Hx Hxs. cbn.
    rewrite Hx, dims_eqb_refl, (IH _ Hxs). reflexivity.
Qed.

(** An assignment that goes through leaves as many variables, of the
    shapes they had. *)
Lemma assign_values_shapes (variables : list tensor) :
  forall values assigned,
    assign_values jax variables values = Ok assigned ->
    map (shape jax) assigned = map (shape jax) variables.
Proof.
  induction variables as [|v vs IH]; intros values assigned H.
  - cbn in H. injection H as <-. reflexivity.
  - destruct values as [|x xs]; cbn in H.
    + injection H as <-. reflexivity.
    + destruct (dims_eqb (shape jax v) (shape jax x)) eqn:E; [|discriminate H].
      apply bind_inv in H as (rest & Hrest & H). injection H as <-.
      apply dims_eqb_eq in E. cbn. rewrite (IH _ _ Hrest), E. reflexivity.
Qed.

End Assign.

(** ** Logging cannot make a loop fail *)

Section Progress.

Variable tensor : Type.
Variable jax : Jax tensor.
Variable model : Model tensor.
Variable loss_fn : Loss tensor.
Variable optimizer : Optimizer tensor.
Variable train_acc_metric : Metric tensor.
Variable val_acc_metric : Metric tensor.

Hypothesis loss_ok : loss_is_scalar jax loss_fn.
Hypothesis train_metric_ok : metric_keeps_shapes jax train_acc_metric.
Hypothesis val_metric_ok : metric_keeps_shapes jax val_acc_metric.

Lemma log_training_returns (step : nat) (l : tensor) (tv ntv ov mv : list tensor)
    (w : world tensor) :
  is_scalar jax l = true ->
  map (shape jax) (train_acc_variables w) = map (shape jax) mv ->
  exists w',
    WithMetrics.log_training jax train_acc_metric step (Arr l)
      (state4 tv ntv ov mv) w = Ok (tt, w') /\
    train_acc_variables w' = mv.
Proof.
  intros Hscalar Hshape.
  unfold WithMetrics.log_training, mbind, lift, gets, modify, print, state4,
    float_of.
  cbn. rewrite Hscalar. cbn. rewrite arrays_map_Arr. cbn.
  rewrite (assign_values_same_shapes jax _ _ Hshape).
  eexists. split; reflexivity.
Qed.

Lemma log_validation_returns (step : nat) (l : tensor) (tv ntv mv : list tensor)
    (w : world tensor) :
  is_scalar jax l = true ->
  map (shape jax) (val_acc_variables w) = map (shape jax) mv ->
  exists w',
    WithMetrics.log_validation jax val_acc_metric step (Arr l)
      (state3 tv ntv mv) w = Ok (tt, w') /\
    val_acc_variables w' = mv.
Proof.
  intros Hscalar Hshape.
  unfold WithMetrics.log_validation, mbind, lift, gets, modify, print, state3,
    float_of.
  cbn. rewrite Hscalar. cbn. rewrite arrays_map_Arr. cbn.
  rewrite (assign_values_same_shapes jax _ _ Hshape).
  eexists. split; reflexivity.
Qed.

Lemma training_loop_returns (train_dataset : list (tensor * tensor)) :
  forall step tv ntv ov mv w final,
    map (shape jax) (train_acc_variables w) = map (shape jax) mv ->
    fold_steps (WithMetrics.train_step jax model loss_fn optimizer train_acc_metric)
      train_dataset (state4 tv ntv ov mv) = Ok final ->
    exists w',
      WithMetrics.training_loop jax model loss_fn optimizer train_acc_metric
        step train_dataset (state4 tv ntv ov mv) w = Ok (final, w').
Proof.
  induction train_dataset as [|[x y] rest IH];
    intros step tv ntv ov mv w final Hshape H.
  - cbn in H. injection H as <-. eexists. reflexivity.
  - cbn [fold_steps] in H.
    apply bind_inv in H as (out & Hstep & H).
    pose proof Hstep as Hout.
    change (Tup [Arr x; Arr y]) with (batch x y) in Hout.
    rewrite train_step_eq in Hout.
    apply bind_inv in Hout as ([[y_pred ntv'] losses] & _ & Hout).
    apply bind_inv in Hout as (l & Hl & Hout).
    apply bind_inv in Hout as (mv' & Hm & Hout).
    apply bind_inv in Hout as (g & _ & Hout).
    apply bind_inv in Hout as ([tv' ov'] & _ & Hout).
    injection Hout as <-.
    cbn in H.
    apply loss_ok in Hl.
    apply train_metric_ok in Hm.
    cbn [WithMetrics.training_loop]. unfold mbind at 1. unfold lift at 1.
    rewrite Hstep. unfold mbind at 1. cbn [lift unpack2 items_of bind].
    unfold mbind at 1.
    destruct (Nat.eqb (step mod 100) 0).
    + destruct (log_training_returns step l tv' ntv' ov' mv' w) as (w1 & -> & Hw1);
        [exact Hl|congruence|].
      apply IH; [rewrite Hw1; reflexivity|exact H].
    + cbn [mret]. apply IH; [congruence|exact H].
Qed.

Lemma eval_loop_returns (val_dataset : list (tensor * tensor)) :
  forall step tv ntv mv w final,
    map (shape jax) (val_acc_variables w) = map (shape jax) mv ->
    fold_steps (WithMetrics.eval_step model loss_fn val_acc_metric)
      val_dataset (state3 tv ntv mv) = Ok final ->
    exists w',
      WithMetrics.eval_loop jax model loss_fn val_acc_metric
        step val_dataset (state3 tv ntv mv) w = Ok (final, w').
Proof.
  induction val_dataset as [|[x y] rest IH];
    intros step tv ntv mv w final Hshape H.
  - cbn in H. injection H as <-. eexists. reflexivity.
  - cbn [fold_steps] in H.
    apply bind_inv in H as (out & Hstep & H).
    pose proof Hstep as Hout.
    change (Tup [Arr x; Arr y]) with (batch x y) in Hout.
    rewrite eval_step_eq in Hout.
    apply bind_inv in Hout as ([[y_pred ntv'] losses] & _ & Hout).
    apply bind_inv in Hout as (l & Hl & Hout).
    apply bind_inv in Hout as (mv' & Hm & Hout).
    injection Hout as <-.
    cbn in H.
    apply loss_ok in Hl.
    apply val_metric_ok in Hm.
    cbn [WithMetrics.eval_loop]. unfold mbind at 1. unfold lift at 1.
    rewrite Hstep. unfold mbind at 1. cbn [lift unpack2 items_of bind].
    unfold mbind at 1.
    destruct (Nat.eqb (step mod 100) 0).
    + destruct (log_validation_returns step l tv ntv' mv' w) as (w1 & -> & Hw1);
        [exact Hl|congruence|].
      apply IH; [rewrite Hw1; reflexivity|exact H].
    + cbn [mret]. apply IH; [congruence|exact H].
Qed.

End Progress.

(** X10.  With a loss that returns scalars, metrics whose update keeps the
    shapes of the accumulator, and metric objects whose variables have the
    shapes of the accumulator in the state, each loop of cell 25 returns
    whenever its step function returns on every batch: [float(loss)], the
    prints and the assignments of the logging blocks never raise, at
    whatever step the loop starts. *)
Theorem logging_cannot_fail (tensor : Type) (jax : Jax tensor) :
  (forall (model : Model tensor) (loss_fn : Loss tensor)
          (optimizer : Optimizer tensor) (train_acc_metric : Metric tensor)
          (train_dataset : list (tensor * tensor)) (step : nat)
          (tv ntv ov mv : list tensor) (final : pyval tensor) (w : world tensor),
     loss_is_scalar jax loss_fn ->
     metric_keeps_shapes jax train_acc_metric ->
     map (shape jax) (train_acc_variables w) = map (shape jax) mv ->
     fold_steps (WithMetrics.train_step jax model loss_fn optimizer
                   train_acc_metric)
       train_dataset (state4 tv ntv ov mv) = Ok final ->
     exists w',
       WithMetrics.training_loop jax model loss_fn optimizer train_acc_metric
         step train_dataset (state4 tv ntv ov mv) w = Ok (final, w')) /\
  (forall (model : Model tensor) (loss_fn : Loss tensor)
          (val_acc_metric : Metric tensor)
          (val_dataset : list (tensor * tensor)) (step : nat)
          (tv ntv mv : list tensor) (final : pyval tensor) (w : world tensor),
     loss_is_scalar jax loss_fn ->
     metric_keeps_shapes jax val_acc_metric ->
     map (shape jax) (val_acc_variables w) = map (shape jax) mv ->
     fold_steps (WithMetrics.eval_step model loss_fn val_acc_metric)
       val_dataset (state3 tv ntv mv) = Ok final ->
     exists w',
       WithMetrics.eval_loop jax model loss_fn val_acc_metric
         step val_dataset (state3 tv ntv mv) w = Ok (final, w')).
Proof.
  split.
  - intros model loss_fn optimizer train_acc_metric train_dataset step
      tv ntv ov mv final w Hloss Hmetric Hshape H.
    eapply training_loop_returns; [exact Hloss|exact Hmetric|exact Hshape|exact H].
  - intros model loss_fn val_acc_metric val_dataset step
      tv ntv mv final w Hloss Hmetric Hshape H.
    eapply eval_loop_returns; [exact Hloss|exact Hmetric|exact Hshape|exact H].
Qed.

Lemma toy_loss_is_scalar : loss_is_scalar Toy.jax Toy.loss_fn.
Proof.
  intros y y_pred l H. unfold Toy.loss_fn in H.
  destruct (Nat.eqb (length y) (length y_pred)); [|discriminate H].
  injection H as <-. reflexivity.
Qed.

Lemma logging_cannot_fail_witness :
  (exists w1',
     WithMetrics.training_loop Toy.jax (Toy.model false) Toy.loss_fn Toy.optimizer
       Toy.accuracy 0 (Toy.train_dataset ++ Toy.train_dataset)
       (state4 [[2; 0]%Z] [[0%Z]] [[0; 0]%Z] [[0%Z]; [0%Z]]) Toy.fresh
     = Ok (state4 [[10; 6]%Z] [[2%Z]] [[-8; -6]%Z] [[1%Z]; [4%Z]], w1')) /\
  (exists w2',
     WithMetrics.eval_loop Toy.jax (Toy.model false) Toy.loss_fn Toy.accuracy
       200 Toy.val_dataset (state3 [[2; 0]%Z] [[0%Z]] [[0%Z]; [0%Z]])
       Toy.after_program
     = Ok (state3 [[2; 0]%Z] [[1%Z]] [[0%Z]; [1%Z]], w2')).
Proof.
  destruct (@logging_cannot_fail Toy.tensor Toy.jax) as [Htrain Heval].
  split.
  - apply (Htrain (Toy.model false) Toy.loss_fn Toy.optimizer Toy.accuracy
             (Toy.train_dataset ++ Toy.train_dataset) 0).
    + exact toy_loss_is_scalar.
    + exact toy_metric_keeps_shapes.
    + reflexivity.
    + vm_compute. reflexivity.
  - apply (Heval (Toy.model false) Toy.loss_fn Toy.accuracy Toy.val_dataset 200).
    + exact toy_loss_is_scalar.
    + exact toy_metric_keeps_shapes.
    + reflexivity.
    + vm_compute. reflexivity.
Defined.

(** ** Reattaching the state to the model (cells 17 and 19) *)

Section RoundTrip.

Variable tensor : Type.
Variable jax : Jax tensor.
Variable model : Model tensor.
Variable loss_fn : Loss tensor.
Variable optimizer : Optimizer tensor.

Hypothesis model_ok : model_keeps_shapes jax model.
Hypothesis optimizer_ok : optimizer_keeps_shapes jax optimizer.

Lemma first_train_step_shapes (tv ntv ov : list tensor) (x y : tensor)
    (r : pyval tensor) :
  FirstExample.train_step jax model loss_fn optimizer
    (Tup [Vars tv; Vars ntv; Vars ov]) (batch x y) = Ok r ->
  exists l tv' ntv' ov',
    r = Tup [Arr l; Tup [Vars tv'; Vars ntv'; Vars ov']] /\
    map (shape jax) tv' = map (shape jax) tv /\
    map (shape jax) ntv' = map (shape jax) ntv.
Proof.
  unfold FirstExample.train_step, jit, FirstExample.train_step_eager,
    FirstExample.grad_fn, value_and_grad, FirstExample.compute_loss_and_updates,
    stateless_call, call_loss, stateless_apply, batch.
  cbn. intros H. invert_ok.
  match goal with
  | Hf : forward model _ _ _ _ = Ok _, Ha : apply_gradients optimizer _ _ _ = Ok _
    |- _ => apply model_ok in Hf; apply optimizer_ok in Ha; destruct Ha as [Ha _];
            eexists _, _, _, _; repeat split; [exact Ha|exact Hf]
  end.
Qed.

Lemma first_training_loop_shapes (train_dataset : list (tensor * tensor)) :
  forall step tv ntv ov w final w',
    FirstExample.training_loop jax model loss_fn optimizer step train_dataset
      (Tup [Vars tv; Vars ntv; Vars ov]) w = Ok (final, w') ->
    exists tv' ntv' ov',
      final = Tup [Vars tv'; Vars ntv'; Vars ov'] /\
      map (shape jax) tv' = map (shape jax) tv /\
      map (shape jax) ntv' = map (shape jax) ntv.
Proof.
  induction train_dataset as [|[x y] rest IH]; intros step tv ntv ov w final w' H.
  - apply mret_inv in H as [-> _]. exists tv, ntv, ov. repeat split.
  - cbn [FirstExample.training_loop] in H.
    apply mbind_inv in H as (out & w1 & Hstep & H).
    apply lift_inv in Hstep as [Hstep ->].
    apply first_train_step_shapes in Hstep
      as (l & tv' & ntv' & ov' & -> & Htv & Hntv).
    apply mbind_inv in H as ([loss state'] & w2 & Hun & H).
    apply lift_inv in Hun as [Hun ->].
    cbn in Hun. injection Hun as <- <-.
    apply mbind_inv in H as ([] & w3 & _ & H).
    apply IH in H as (tv2 & ntv2 & ov2 & -> & Htv2 & Hntv2).
    exists tv2, ntv2, ov2. repeat split; congruence.
Qed.

Lemma reattach_returns (tv ntv ov : list tensor) (w : world tensor) :
  map (shape jax) (model_trainable_variables w) = map (shape jax) tv ->
  map (shape jax) (model_non_trainable_variables w) = map (shape jax) ntv ->
  exists w',
    FirstExample.reattach jax (Tup [Vars tv; Vars ntv; Vars ov]) w = Ok (tt, w') /\
    model_trainable_variables w' = tv /\
    model_non_trainable_variables w' = ntv /\
    optimizer_variables w' = optimizer_variables w.
Proof.
  intros Htv Hntv.
  unfold FirstExample.reattach, mbind, lift, gets, modify, values_of.
  cbn. rewrite !arrays_map_Arr. cbn.
  rewrite (assign_values_same_shapes jax _ _ Htv). cbn.
  rewrite (assign_values_same_shapes jax _ _ Hntv).
  eexists. repeat split.
Qed.

End RoundTrip.

(** X11.  With a model and an optimizer that keep the shapes of the collections
    they update, cells 17 and 19 run to the end whenever the training loop
    does, and afterwards reading the model's trainable and non-trainable
    variables gives the values of the final state, for any number of
    batches, none included; the optimizer values of the final state are not
    in the optimizer object, which holds what [build] gave it. *)
Theorem reattachment_round_trip (tensor : Type) (jax : Jax tensor)
    (model : Model tensor) (loss_fn : Loss tensor) (optimizer : Optimizer tensor)
    (train_dataset : list (tensor * tensor)) (w wa : world tensor)
    (final : pyval tensor) :
  model_keeps_shapes jax model ->
  optimizer_keeps_shapes jax optimizer ->
  (state <- FirstExample.initial_state optimizer ;;
   FirstExample.training_loop jax model loss_fn optimizer 0 train_dataset state)%drv
    w = Ok (final, wa) ->
  exists tv ntv ov w',
    final = Tup [Vars tv; Vars ntv; Vars ov] /\
    FirstExample.program jax model loss_fn optimizer train_dataset w
    = Ok (final, w') /\
    model_trainable_variables w' = tv /\
    model_non_trainable_variables w' = ntv /\
    optimizer_variables w'
    = build_variables optimizer (model_trainable_variables w).
Proof.
  intros Hmodel Hopt H.
  apply mbind_inv in H as (st0 & w0 & Hinit & Hloop).
  pose proof Hinit as Hinit'.
  cbv [FirstExample.initial_state mbind modify gets mret] in Hinit'.
  injection Hinit' as <- <-.
  pose proof Hloop as Hshapes.
  eapply first_training_loop_shapes in Hshapes;
    [|exact Hmodel|exact Hopt].
  destruct Hshapes as (tv & ntv & ov & -> & Htv & Hntv).
  pose proof (@first_training_loop_frame _ jax model loss_fn optimizer _
                (fun w => (model_trainable_variables w,
                           model_non_trainable_variables w,
                           optimizer_variables w))
                (fun _ _ => eq_refl) train_dataset 0 _ _ _ _ Hloop) as Hframe.
  cbn in Hframe. injection Hframe as Etv Entv Eov.
  destruct (@reattach_returns _ jax tv ntv ov wa) as (w' & Hre & Rtv & Rntv & Rov);
    [congruence|congruence|].
  exists tv, ntv, ov, w'. split; [reflexivity|].
  split; [|repeat split; congruence].
  unfold FirstExample.program.
  unfold mbind at 1. rewrite Hinit.
  unfold mbind at 1. rewrite Hloop.
  unfold mbind at 1. rewrite Hre. reflexivity.
Qed.

Lemma reattachment_round_trip_witness :
  exists tv ntv ov w',
    Tup [Vars [[1; 0]%Z]; Vars [[1%Z]]; Vars [[1; 0]%Z]]
    = Tup [Vars tv; Vars ntv; Vars ov] /\
    FirstExample.program Toy.jax (Toy.model false) Toy.loss_fn Toy.optimizer
      Toy.train_dataset Toy.fresh
    = Ok (Tup [Vars [[1; 0]%Z]; Vars [[1%Z]]; Vars [[1; 0]%Z]], w') /\
    model_trainable_variables w' = tv /\
    model_non_trainable_variables w' = ntv /\
    optimizer_variables w'
    = build_variables Toy.optimizer (model_trainable_variables Toy.fresh).
Proof.
  eapply (@reattachment_round_trip Toy.tensor Toy.jax (Toy.model false)
            Toy.loss_fn Toy.optimizer Toy.train_dataset Toy.fresh).
  - exact (toy_model_keeps_shapes false).
  - exact toy_optimizer_keeps_shapes.
  - vm_compute. reflexivity.
Defined.

(** ** What an assignment loop leaves in the variables *)

(** X12.  [for variable, value in zip(variables, values): variable.assign(value)]
    pairs the variables with the values as far as both go.  When it goes
    through, the variables that got a value hold it, the ones [zip] did not
    reach hold what they held, values beyond the last variable are dropped,
    and every variable has the shape it had.  It raises exactly when some
    pair differs in shape, with [ValueError]. *)
Theorem assignment_loop_effect (tensor : Type) (jax : Jax tensor)
    (variables values : list tensor) :
  (forall assigned,
     assign_values jax variables values = Ok assigned ->
     assigned = firstn (length variables) values
                ++ skipn (length values) variables /\
     map (shape jax) assigned = map (shape jax) variables) /\
  (forall e,
     assign_values jax variables values = Raise e ->
     e = ValueError /\
     exists i variable value,
       nth_error variables i = Some variable /\
       nth_error values i = Some value /\
       shape jax variable <> shape jax value) /\
  ((forall i variable value,
      nth_error variables i = Some variable ->
      nth_error values i = Some value ->
      shape jax variable = shape jax value) ->
   exists assigned, assign_values jax variables values = Ok assigned).
Proof.
  revert values.
  induction variables as [|v vs IH]; intros values.
  - repeat split.
    + cbn in H. injection H as <-. rewrite skipn_nil. reflexivity.
    + cbn in H. injection H as <-. reflexivity.
    + discriminate H.
    + discriminate H.
    + eexists. reflexivity.
  - destruct values as [|x xs].
    + repeat split; try discriminate.
      * cbn in H. injection H as <-. reflexivity.
      * cbn in H. injection H as <-. reflexivity.
      * eexists. reflexivity.
    + destruct (IH xs) as (IHok & IHraise & IHall).
      cbn [assign_values].
      destruct (dims_eqb (shape jax v) (shape jax x)) eqn:E.
      * apply dims_eqb_eq in E. split; [|split].
        -- intros assigned H.
           apply bind_inv in H as (rest & Hrest & H). injection H as <-.
           destruct (IHok _ Hrest) as [-> Hshape]. cbn.
           split; [reflexivity|].
           cbn in Hshape. rewrite Hshape, E. reflexivity.
        -- intros e H.
           destruct (assign_values jax vs xs) as [rest|e'] eqn:Hrest;
             [discriminate H|].
           cbn in H. injection H as <-.
           destruct (IHraise _ eq_refl) as (-> & i & a & b & Ha & Hb & Hne).
           split; [reflexivity|]. exists (S i), a, b. repeat split; assumption.
        -- intros Hall.
           destruct IHall as [rest ->].
           ++ intros i a b Ha Hb. exact (Hall (S i) a b Ha Hb).
           ++ eexists. reflexivity.
      * assert (Hne : shape jax v <> shape jax x).
        { intros Heq. rewrite Heq, dims_eqb_refl in E. discriminate E. }
        split; [|split].
        -- intros assigned H. discriminate H.
        -- intros e H. injection H as <-. split; [reflexivity|].
           exists 0, v, x. repeat split. exact Hne.
        -- intros Hall. exfalso. apply Hne. exact (Hall 0 v x eq_refl eq_refl).
Qed.

(** ** The shapes of the objects' variables *)

Section ObjectShapes.

Variable tensor : Type.
Variable jax : Jax tensor.
Variable model : Model tensor.
Variable loss_fn : Loss tensor.
Variable optimizer : Optimizer tensor.
Variable train_acc_metric : Metric tensor.
Variable val_acc_metric : Metric tensor.

Lemma log_training_keeps_shapes (step : nat) (loss state : pyval tensor) :
  preserves (metric_shapes jax)
    (WithMetrics.log_training jax train_acc_metric step loss state).
Proof.
  intros w u w' H. unfold WithMetrics.log_training in H. invert_run.
  unfold metric_shapes. cbn. f_equal.
  eapply assign_values_shapes. eassumption.
Qed.

Lemma log_validation_keeps_shapes (step : nat) (loss state : pyval tensor) :
  preserves (metric_shapes jax)
    (WithMetrics.log_validation jax val_acc_metric step loss state).
Proof.
  intros w u w' H. unfold WithMetrics.log_validation in H. invert_run.
  unfold metric_shapes. cbn. f_equal.
  eapply assign_values_shapes. eassumption.
Qed.

Lemma training_loop_keeps_shapes (train_dataset : list (tensor * tensor)) :
  forall step state,
    preserves (metric_shapes jax)
      (WithMetrics.training_loop jax model loss_fn optimizer train_acc_metric
         step train_dataset state).
Proof.
  induction train_dataset as [|[x y] rest IH]; intros step state;
    cbn [WithMetrics.training_loop].
  - apply preserves_mret.
  - apply preserves_mbind; [apply preserves_lift|intros out].
    apply preserves_mbind; [apply preserves_lift|intros [loss state']].
    apply preserves_mbind; [|intros _; apply IH].
    destruct (Nat.eqb (step mod 100) 0);
      [apply log_training_keeps_shapes|apply preserves_mret].
Qed.

Lemma eval_loop_keeps_shapes (val_dataset : list (tensor * tensor)) :
  forall step state,
    preserves (metric_shapes jax)
      (WithMetrics.eval_loop jax model loss_fn val_acc_metric
         step val_dataset state).
Proof.
  induction val_dataset as [|[x y] rest IH]; intros step state;
    cbn [WithMetrics.eval_loop].
  - apply preserves_mret.
  - apply preserves_mbind; [apply preserves_lift|intros out].
    apply preserves_mbind; [apply preserves_lift|intros [loss state']].
    apply preserves_mbind; [|intros _; apply IH].
    destruct (Nat.eqb (step mod 100) 0);
      [apply log_validation_keeps_shapes|apply preserves_mret].
Qed.

End ObjectShapes.

(** X13.  Whatever the collaborators return, a program that runs to its end
    leaves every object with as many variables as it had, of the shapes
    they had: cells 17 and 19 the model, cell 25 the two metric objects.
    An assignment that would change a shape raises instead.  Each program
    is taken on its own run. *)
Theorem assignments_keep_object_shapes (tensor : Type) :
  (forall (jax : Jax tensor) (model : Model tensor) (loss_fn : Loss tensor)
          (optimizer : Optimizer tensor)
          (train_dataset : list (tensor * tensor))
          (w w1 : world tensor) (s1 : pyval tensor),
     FirstExample.program jax model loss_fn optimizer train_dataset w
     = Ok (s1, w1) ->
     map (shape jax) (model_trainable_variables w1)
     = map (shape jax) (model_trainable_variables w) /\
     map (shape jax) (model_non_trainable_variables w1)
     = map (shape jax) (model_non_trainable_variables w)) /\
  (forall (jax : Jax tensor) (model : Model tensor) (loss_fn : Loss tensor)
          (optimizer : Optimizer tensor)
          (train_acc_metric val_acc_metric : Metric tensor)
          (train_dataset val_dataset : list (tensor * tensor))
          (w w2 : world tensor) (s2 : pyval tensor * pyval tensor),
     WithMetrics.program jax model loss_fn optimizer train_acc_metric
       val_acc_metric train_dataset val_dataset w = Ok (s2, w2) ->
     metric_shapes jax w2 = metric_shapes jax w).
Proof.
  split.
  - intros jax model loss_fn optimizer train_dataset w w1 s1 H1.
    unfold FirstExample.program in H1.
    apply mbind_inv in H1 as (st0 & w0 & Hinit & H1).
    apply mbind_inv in H1 as (final & wa & Hloop & H1).
    apply mbind_inv in H1 as ([] & wb & Hre & H1).
    apply mret_inv in H1 as [-> ->].
    cbv [FirstExample.initial_state mbind modify gets mret] in Hinit.
    injection Hinit as <- <-.
    pose proof Hloop as Hstate.
    apply first_training_loop_state in Hstate as (tv & ntv & ov & ->).
    pose proof (@first_training_loop_frame _ jax model loss_fn optimizer _
                  (fun w => (model_trainable_variables w,
                             model_non_trainable_variables w))
                  (fun _ _ => eq_refl) _ _ _ _ _ _ Hloop) as Hframe.
    cbn in Hframe. injection Hframe as Etv Entv.
    apply reattach_writes in Hre as [Htv Hntv].
    apply assign_values_shapes in Htv, Hntv.
    rewrite Htv, Hntv, Etv, Entv. split; reflexivity.
  - intros jax model loss_fn optimizer train_acc_metric val_acc_metric
      train_dataset val_dataset w w2 s2 H2.
    unfold WithMetrics.program in H2.
    apply mbind_inv in H2 as (st0 & w0 & Hinit & H2).
    apply mbind_inv in H2 as (trained & wa & Hloop & H2).
    apply mbind_inv in H2 as (st1 & wb & Hes & H2).
    apply mbind_inv in H2 as (evaluated & wc & Heval & H2).
    apply mret_inv in H2 as [_ ->].
    cbv [WithMetrics.initial_state mbind modify gets mret] in Hinit.
    injection Hinit as _ <-.
    apply training_loop_keeps_shapes in Hloop.
    apply (@eval_state_frame _ _ (metric_shapes jax)) in Hes.
    apply eval_loop_keeps_shapes in Heval.
    rewrite Heval, Hes, Hloop. reflexivity.
Qed.

Lemma assignments_keep_object_shapes_witness :
  (map (shape Toy.jax) (model_trainable_variables Toy.after_first_program)
   = map (shape Toy.jax) (model_trainable_variables Toy.fresh) /\
   map (shape Toy.jax) (model_non_trainable_variables Toy.after_first_program)
   = map (shape Toy.jax) (model_non_trainable_variables Toy.fresh)) /\
  metric_shapes Toy.jax Toy.after_program = metric_shapes Toy.jax Toy.fresh.
Proof.
  destruct (assignments_keep_object_shapes Toy.tensor) as [Hfirst Hmetrics].
  split.
  - eapply (Hfirst Toy.jax (Toy.model false) Toy.loss_fn Toy.optimizer
              Toy.train_dataset Toy.fresh).
    vm_compute. reflexivity.
  - eapply (Hmetrics Toy.jax (Toy.model false) Toy.loss_fn Toy.optimizer
              Toy.accuracy Toy.accuracy Toy.train_dataset Toy.val_dataset
              Toy.fresh).
    vm_compute. reflexivity.
Defined.
